(** * A shallow embedding of the crawl4ai web-crawler service

    Source files embedded here:
    - [app/utils.py]            ([validate_url], [normalize_url])
    - [app/config.py]           ([Settings])
    - [app/crawler_service.py]  ([_build_run_config], [_build_url_filter],
                                 [_extract_links], [_extract_metadata],
                                 [_extract_content], [crawl_urls],
                                 [crawl_sub_urls])

    Conventions.
    - A Python [str] is a [string]; each [ascii] stands for one code point
      below 256.
    - A Python attribute that may be missing ([hasattr]) is an [option]:
      [None] is "no such attribute".  An attribute holding [Optional[str]]
      is an [option (option string)].
    - A Python [float] is an IEEE 754 binary64 number, the kernel's
      [float]: [time.time()] readings, durations and delays.  Its
      arithmetic is the correctly rounded one, and the built-in
      [round(x, 2)] is CPython's: correct rounding to two decimals of the
      exact binary value, converted back to the nearest double.
    - The browser, the clock and [uuid.uuid4] are external: they are the
      fields of the class [Collaborators], acting on an abstract world.
    - An exception is represented by its [str(e)] message.
    - Logging has no influence on any returned value and is left out. *)

From Stdlib Require Import ZArith Floats Ascii String.
From stdpp Require Import base list strings gmap.

(** ** Python primitives *)

Module Py.

(** [str.isspace] on one code point below 256 (also what [\s] matches in
    a [str] pattern). *)
Definition isspace (c : ascii) : bool :=
  let n := nat_of_ascii c in
  ((9 <=? n) && (n <=? 13)) || ((28 <=? n) && (n <=? 32))
  || (n =? 133) || (n =? 160).

(** Truth value of [s.strip()]: some character is not whitespace. *)
Fixpoint strip_truthy (s : string) : bool :=
  match s with
  | EmptyString => false
  | String c s' => negb (isspace c) || strip_truthy s'
  end.

(** [s.startswith(p)]. *)
Definition startswith (s p : string) : bool := String.prefix p s.

(** [url.startswith(('http://', 'https://', '/'))]. *)
Definition startswith_link (url : string) : bool :=
  startswith url "http://" || startswith url "https://" || startswith url "/".

(** [url.startswith(('http://', 'https://'))]. *)
Definition startswith_http (url : string) : bool :=
  startswith url "http://" || startswith url "https://".

(** Truth value of a [str]. *)
Definition str_truthy (s : string) : bool :=
  match s with EmptyString => false | _ => true end.

(** Truth value of an [Optional[str]] attribute guarded by [hasattr]:
    [hasattr(o, a) and o.a]. *)
Definition attr_truthy (a : option (option string)) : bool :=
  match a with Some (Some s) => str_truthy s | _ => false end.

(** The string held by an attribute, the empty string when there is none. *)
Definition attr_str (a : option (option string)) : string :=
  match a with Some (Some s) => s | _ => "" end.

(** [s.replace(old, new)] for a non-empty [old]: [skip] counts the
    characters of a replaced occurrence still to be dropped. *)
Fixpoint replace_from (old new : string) (skip : nat) (s : string) : string :=
  match s with
  | EmptyString => ""
  | String c s' =>
      match skip with
      | S k => replace_from old new k s'
      | O => if String.prefix old s
             then new +:+ replace_from old new (String.length old - 1) s'
             else String c (replace_from old new 0 s')
      end
  end.

Definition replace (s old new : string) : string := replace_from old new 0 s.

(** The longest prefix of [s] whose characters all satisfy [p]. *)
Fixpoint take_while (p : ascii -> bool) (s : string) : string :=
  match s with
  | EmptyString => ""
  | String c s' => if p c then String c (take_while p s') else ""
  end.

Fixpoint drop_while (p : ascii -> bool) (s : string) : string :=
  match s with
  | EmptyString => ""
  | String c s' => if p c then drop_while p s' else s
  end.

(** [float(n)] for an [int], also the conversion the arithmetic operators
    apply to an [int] operand next to a [float]: the nearest double, ties
    to even.  Python raises [OverflowError] where this is an infinity,
    see [int_fits_float]. *)
Definition float_of_int (n : Z) : float :=
  SF2Prim (binary_normalize prec emax n 0 false).

(** Whether the conversion of [n] to a [float] succeeds. *)
Definition int_fits_float (n : Z) : bool :=
  PrimFloat.is_finite (float_of_int n).

(** The double a decimal literal denotes, given as the fraction [n / d]
    of two integers below [2 ** 53]: the nearest double, which is what the
    correctly rounded division of the two gives. *)
Definition decimal (n d : Z) : float :=
  PrimFloat.div (float_of_int n) (float_of_int d).

(** The integer nearest to a hundred times [m * 2 ** e], a tie going to
    the even one. *)
Definition nearest_hundredths (m : positive) (e : Z) : Z :=
  let n := (100 * Zpos m)%Z in
  if (0 <=? e)%Z then (n * 2 ^ e)%Z
  else
    let d := (2 ^ (- e))%Z in
    let q := (n / d)%Z in
    match (2 * (n mod d) ?= d)%Z with
    | Lt => q
    | Gt => (q + 1)%Z
    | Eq => if Z.even q then q else (q + 1)%Z
    end.

(** [round(x, 2)] for a [float].  CPython writes [x] as a decimal string
    with two digits after the point, correctly rounded (the exact binary
    value of [x] decides, and a tie goes to the even hundredth), and
    converts the string back: the result is the double nearest to that
    many hundredths, with the sign of [x], also on a zero.  Zeros,
    infinities and NaN are returned as they are. *)
Definition round2 (x : float) : float :=
  match Prim2SF x with
  | S754_finite s m e =>
      match nearest_hundredths m e with
      | Zpos z => SF2Prim (SFdiv prec emax (S754_finite s z 0) (S754_finite false 100 0))
      | _ => SF2Prim (S754_zero s)
      end
  | _ => x
  end.

End Py.

(** ** The three regular expressions of [crawler_service.py]

    Each pattern is a fixed literal of the source; its matcher is written
    out as the left-to-right, greedy, backtracking search of [re]. *)

Module Re.

Definition is_quote (c : ascii) : bool :=
  (Ascii.eqb c "034"%char) || (Ascii.eqb c "039"%char).

(** One attempt of the pattern of lines 294 and 300 at the head of [s]:
    the five characters href=, a quote (double or single), a greedy
    non-empty run of non-quotes (the group), a quote.  The result is the
    group and the length of the whole match.  The run excludes exactly
    the closing characters, so the greedy run is the only candidate. *)
Definition href_here (s : string) : option (string * nat) :=
  match s with
  | String "h"%char (String "r"%char (String "e"%char (String "f"%char
      (String "="%char (String q rest))))) =>
      if is_quote q then
        let g := Py.take_while (fun c => negb (is_quote c)) rest in
        match g, Py.drop_while (fun c => negb (is_quote c)) rest with
        | String _ _, String _ _ => Some (g, 5 + 1 + String.length g + 1)
        | _, _ => None
        end
      else None
  | _ => None
  end.

(** [re.findall(href_pattern, s)]: non-overlapping matches, leftmost
    first; [skip] counts the characters of the last match still to be
    passed over. *)
Fixpoint findall_href_from (skip : nat) (s : string) : list string :=
  match s with
  | EmptyString => []
  | String _ s' =>
      match skip with
      | S k => findall_href_from k s'
      | O => match href_here s with
             | Some (g, len) => g :: findall_href_from (len - 1) s'
             | None => findall_href_from 0 s'
             end
      end
  end.

Definition findall_href (s : string) : list string := findall_href_from 0 s.

Definition not_rbracket (c : ascii) : bool := negb (Ascii.eqb c "]"%char).
Definition not_rparen (c : ascii) : bool := negb (Ascii.eqb c ")"%char).

(** One attempt of [\[([^\]]+)\]\(([^)]+)\)] at the head of [s]: both
    groups and the length of the match. *)
Definition mdlink_here (s : string) : option ((string * string) * nat) :=
  match s with
  | String "["%char rest =>
      let txt := Py.take_while not_rbracket rest in
      match txt, Py.drop_while not_rbracket rest with
      | String _ _, String _ (String "("%char rest2) =>
          let url := Py.take_while not_rparen rest2 in
          match url, Py.drop_while not_rparen rest2 with
          | String _ _, String _ _ =>
              Some ((txt, url), 1 + String.length txt + 2 + String.length url + 1)
          | _, _ => None
          end
      | _, _ => None
      end
  | _ => None
  end.

(** [re.findall(link_pattern, s)]. *)
Fixpoint findall_mdlink_from (skip : nat) (s : string) : list (string * string) :=
  match s with
  | EmptyString => []
  | String _ s' =>
      match skip with
      | S k => findall_mdlink_from k s'
      | O => match mdlink_here s with
             | Some (g, len) => g :: findall_mdlink_from (len - 1) s'
             | None => findall_mdlink_from 0 s'
             end
      end
  end.

Definition findall_mdlink (s : string) : list (string * string) :=
  findall_mdlink_from 0 s.

Definition not_newline (c : ascii) : bool := negb (Ascii.eqb c "010"%char).

(** [(.+)$] under [re.MULTILINE]: the greedy run of non-newline
    characters ends at a newline or at the end of the text, where [$]
    holds; it must not be empty. *)
Definition dot_plus_eol (s : string) : option string :=
  match Py.take_while not_newline s with
  | EmptyString => None
  | g => Some g
  end.

(** [\s*(.+)$], greedy on [\s] with backtracking. *)
Fixpoint spaces_then_title (s : string) : option string :=
  match s with
  | String c s' =>
      if Py.isspace c then
        match spaces_then_title s' with
        | Some g => Some g
        | None => dot_plus_eol s
        end
      else dot_plus_eol s
  | EmptyString => dot_plus_eol s
  end.

(** One attempt of [#\s+(.+)$] at a line start. *)
Definition heading_here (s : string) : option string :=
  match s with
  | String "#"%char (String c s') =>
      if Py.isspace c then spaces_then_title s' else None
  | _ => None
  end.

(** [re.search(r'^#\s+(.+)$', s, re.MULTILINE)], giving [group(1)]:
    [bol] says whether the head of [s] is at the start of a line. *)
Fixpoint search_heading_from (bol : bool) (s : string) : option string :=
  match s with
  | EmptyString => None
  | String c s' =>
      match (if bol then heading_here s else None) with
      | Some g => Some g
      | None => search_heading_from (Ascii.eqb c "010"%char) s'
      end
  end.

Definition search_heading (s : string) : option string :=
  search_heading_from true s.

End Re.

(** ** The renderer's result object, as the service reads it *)

(** Value of a [links] attribute: a list, a dict (only its keys are read,
    in insertion order), or anything else. *)
Inductive LinksValue :=
| LinksList (l : list string)
| LinksDict (keys : list string)
| LinksOther.

(** A metadata mapping, in insertion order; values are [Optional[str]]. *)
Definition MetaDict := list (string * option string).

(** Value of a [metadata] attribute: a dict or anything else. *)
Inductive MetaValue :=
| MetaIsDict (d : MetaDict)
| MetaNotDict (truthy : bool).

Record CrawlResult := {
  r_url : option string;
  r_metadata : option MetaValue;
  r_title : option (option string);
  r_links : option LinksValue;
  r_markdown : option (option string);
  r_html : option (option string);
  r_text : option (option string);
  r_markdown_content : option (option string);
  r_html_content : option (option string);
  r_text_content : option (option string);
  r_success : option bool
}.

(** A result object with no attribute at all. *)
Definition bare_result : CrawlResult :=
  {| r_url := None; r_metadata := None; r_title := None; r_links := None;
     r_markdown := None; r_html := None; r_text := None;
     r_markdown_content := None; r_html_content := None;
     r_text_content := None; r_success := None |}.

(** [getattr(result, attr)] for the six content attributes, the only names
    [_extract_content] asks for; [None] is [hasattr(result, attr) = False]. *)
Definition getattr (r : CrawlResult) (attr : string) : option (option string) :=
  if String.eqb attr "markdown" then r_markdown r
  else if String.eqb attr "html" then r_html r
  else if String.eqb attr "text" then r_text r
  else if String.eqb attr "markdown_content" then r_markdown_content r
  else if String.eqb attr "html_content" then r_html_content r
  else if String.eqb attr "text_content" then r_text_content r
  else None.

(** The four names the request model admits for [content_type] (pattern
    [^(markdown|html|text|all)$]).  The field is [Optional[str]], so a
    request may also carry null: an argument of [_extract_content] that
    may be null is an [option ContentType], see [_extract_content_call]. *)
Inductive ContentType := ct_markdown | ct_html | ct_text | ct_all.

Definition ct_name (ct : ContentType) : string :=
  match ct with
  | ct_markdown => "markdown"
  | ct_html => "html"
  | ct_text => "text"
  | ct_all => "all"
  end.

(** What [_extract_content] returns: a [str] or a [Dict[str, str]]. *)
Inductive Content :=
| ContentStr (s : string)
| ContentDict (d : list (string * string)).

(** ** [CrawlerService._extract_links] *)

(** Lines 283-288: the structured link list. *)
Definition structured_links (r : CrawlResult) : list string :=
  match r_links r with
  | Some (LinksList l) => l
  | Some (LinksDict keys) => keys
  | _ => []
  end.

Definition list_truthy {A} (l : list A) : bool :=
  match l with [] => false | _ => true end.

(** Lines 290-302: the anchor fallback. *)
Definition links_after_html (r : CrawlResult) (links : list string) : list string :=
  if negb (list_truthy links) && Py.attr_truthy (r_html_content r) then
    filter (fun url => Py.startswith_link url = true)
           (Re.findall_href (Py.attr_str (r_html_content r)))
  else if negb (list_truthy links) && Py.attr_truthy (r_html r) then
    filter (fun url => Py.startswith_link url = true)
           (Re.findall_href (Py.attr_str (r_html r)))
  else links.

(** Lines 304-316: the markdown fallback. *)
Definition links_after_markdown (r : CrawlResult) (links : list string) : list string :=
  if negb (list_truthy links) && Py.attr_truthy (r_markdown_content r) then
    filter (fun url => Py.startswith_link url = true)
           (snd <$> Re.findall_mdlink (Py.attr_str (r_markdown_content r)))
  else if negb (list_truthy links) && Py.attr_truthy (r_markdown r) then
    filter (fun url => Py.startswith_link url = true)
           (snd <$> Re.findall_mdlink (Py.attr_str (r_markdown r)))
  else links.

(** The value of [links] on reaching line 318. *)
Definition candidate_links (r : CrawlResult) : list string :=
  links_after_markdown r (links_after_html r (structured_links r)).

(** Lines 319-324: the loop over [links] with the set [seen]. *)
Fixpoint unique_links_from (seen : gset string) (links : list string) : list string :=
  match links with
  | [] => []
  | link :: rest =>
      if bool_decide (link ∉ seen) && Py.strip_truthy link
      then link :: unique_links_from ({[link]} ∪ seen) rest
      else unique_links_from seen rest
  end.

Definition _extract_links (r : CrawlResult) : list string :=
  unique_links_from ∅ (candidate_links r).

(** ** [CrawlerService._extract_metadata] *)

Definition title_of_heading (s : string) : MetaDict :=
  match Re.search_heading s with
  | Some g => [("title", Some g)]
  | None => []
  end.

Definition _extract_metadata (r : CrawlResult) : MetaDict :=
  match r_metadata r with
  | Some (MetaIsDict d) => d
  | _ =>
      match r_title r with
      | Some t => [("title", t)]
      | None =>
          if Py.attr_truthy (r_markdown_content r)
          then title_of_heading (Py.attr_str (r_markdown_content r))
          else if Py.attr_truthy (r_markdown r)
          then title_of_heading (Py.attr_str (r_markdown r))
          else []
      end
  end.

(** ** [CrawlerService._extract_content] *)

(** [content[key] = value] on an insertion-ordered dict. *)
Fixpoint dict_set (d : list (string * string)) (key value : string)
  : list (string * string) :=
  match d with
  | [] => [(key, value)]
  | (k, v) :: d' =>
      if String.eqb k key then (k, value) :: d' else (k, v) :: dict_set d' key value
  end.

(** [key in content]. *)
Definition dict_has (d : list (string * string)) (key : string) : bool :=
  existsb (fun kv => String.eqb (fst kv) key) d.

(** [content.get(key)]. *)
Fixpoint dict_get (d : list (string * string)) (key : string) : option string :=
  match d with
  | [] => None
  | (k, v) :: d' => if String.eqb k key then Some v else dict_get d' key
  end.

(** Lines 353-357: the loop over the canonical names. *)
Definition fill_canonical (r : CrawlResult) : list (string * string) :=
  foldl (fun content attr =>
           if Py.attr_truthy (getattr r attr)
           then dict_set content attr (Py.attr_str (getattr r attr))
           else content)
        [] ["markdown"; "html"; "text"].

(** Lines 360-364: the loop over the alternate names. *)
Definition fill_alternate (r : CrawlResult) (content : list (string * string))
  : list (string * string) :=
  foldl (fun content attr =>
           if Py.attr_truthy (getattr r attr)
              && negb (dict_has content (Py.replace attr "_content" ""))
           then dict_set content (Py.replace attr "_content" "")
                         (Py.attr_str (getattr r attr))
           else content)
        content ["markdown_content"; "html_content"; "text_content"].

(** Lines 382-386 and 389-393: return the first truthy attribute of a list
    of names, if there is one. *)
Fixpoint first_truthy_attr (r : CrawlResult) (attrs : list string) : option string :=
  match attrs with
  | [] => None
  | attr :: rest =>
      if Py.attr_truthy (getattr r attr)
      then Some (Py.attr_str (getattr r attr))
      else first_truthy_attr r rest
  end.

Definition _extract_content (r : CrawlResult) (content_type : ContentType) : Content :=
  match content_type with
  | ct_all =>
      let content := fill_alternate r (fill_canonical r) in
      if list_truthy content then ContentDict content else ContentStr ""
  | _ =>
      if Py.attr_truthy (getattr r (ct_name content_type))
      then ContentStr (Py.attr_str (getattr r (ct_name content_type)))
      else
        let content_field := ct_name content_type +:+ "_content" in
        if Py.attr_truthy (getattr r content_field)
        then ContentStr (Py.attr_str (getattr r content_field))
        else
          match first_truthy_attr r ["markdown"; "html"; "text"] with
          | Some s => ContentStr s
          | None =>
              match first_truthy_attr r
                      ["markdown_content"; "html_content"; "text_content"] with
              | Some s => ContentStr s
              | None => ContentStr ""
              end
          end
  end.

(** ** [app/config.py]: the settings the service reads *)

Module Config.

Record Settings := {
  browser_verbose : bool;
  crawl_delay : float;
  respect_robots_txt : bool;
  extract_links : bool;
  extract_images : bool;
  output_format : string;
  wait_for_js : bool;
  js_timeout : Z;
  deep_crawl_depth : Z;
  deep_crawl_max_pages : Z;
  deep_crawl_strategy : string
}.

(** The class defaults; the environment may override any of them. *)
Definition defaults : Settings :=
  {| browser_verbose := false;
     crawl_delay := 1%float;
     respect_robots_txt := true;
     extract_links := true;
     extract_images := true;
     output_format := "markdown";
     wait_for_js := true;
     js_timeout := 8000;
     deep_crawl_depth := 5;
     deep_crawl_max_pages := 10;
     deep_crawl_strategy := "best_first" |}.

End Config.

(** ** Keyword arguments and the objects handed to the crawling library *)

(** [**kwargs]: [None] is "key not given".  The value under
    [content_type] may itself be Python's [None] (the request field is
    optional and is passed on as it is): [Some None]. *)
Record Kwargs := {
  kw_depth : option Z;
  kw_max_pages : option Z;
  kw_strategy : option string;
  kw_exclude_patterns : option (list string);
  kw_extract_links : option bool;
  kw_extract_images : option bool;
  kw_output_format : option string;
  kw_content_type : option (option ContentType);
  kw_wait_for_js : option bool;
  kw_js_timeout : option Z;
  kw_crawl_delay : option float;
  kw_respect_robots_txt : option bool
}.

Definition no_kwargs : Kwargs :=
  {| kw_depth := None; kw_max_pages := None; kw_strategy := None;
     kw_exclude_patterns := None; kw_extract_links := None;
     kw_extract_images := None; kw_output_format := None;
     kw_content_type := None; kw_wait_for_js := None; kw_js_timeout := None;
     kw_crawl_delay := None; kw_respect_robots_txt := None |}.

(** [kwargs.get(key, fallback)]. *)
Definition kwargs_get {A} (value : option A) (fallback : A) : A :=
  match value with Some v => v | None => fallback end.

(** [CrawlerRunConfig] as [_build_run_config] fills it ([cache_mode] is
    always [BYPASS] and [markdown_generator] always the default one). *)
Record CrawlerRunConfig := {
  check_robots_txt : bool;
  mean_delay : float;
  verbose : bool;
  wait_until : string;
  page_timeout : Z;
  exclude_external_links : bool;
  exclude_all_images : bool;
  exclude_external_images : bool;
  only_text : bool;
  prettiify : bool
}.

Record URLPatternFilter := { patterns : list string }.

Definition FilterChain := list URLPatternFilter.

Inductive StrategyKind := DFSDeepCrawlStrategy | BestFirstCrawlingStrategy | BFSDeepCrawlStrategy.

(** A deep-crawl strategy object: [filter_chain] is [None] when the
    constructor is called without that argument. *)
Record DeepCrawlStrategy := {
  strategy_kind : StrategyKind;
  max_depth : Z;
  max_pages : Z;
  filter_chain : option FilterChain
}.

(** [CrawlerRunConfig] as [crawl_sub_urls] fills it ([scraping_strategy]
    is always [LXMLWebScrapingStrategy()]). *)
Record DeepRunConfig := {
  deep_crawl_strategy : DeepCrawlStrategy;
  stream : bool;
  deep_verbose : bool
}.

(** ** Results of the two entry points *)

(** One entry of ["results"]: [e_error = None] is "no [error] key". *)
Record UrlResult := {
  e_url : string;
  e_metadata : MetaDict;
  e_content : Content;
  e_success : bool;
  e_execution_time_seconds : float;
  e_error : option string
}.

(** [average_time_per_url] is a [float], or the [int] 0 of line 206 when
    no URL was given, written here as the float zero it is equal to. *)
Record CrawlUrlsResult := {
  cu_task_id : string;
  cu_results : list UrlResult;
  cu_success : bool;
  cu_total_execution_time_seconds : float;
  cu_urls_processed : nat;
  cu_average_time_per_url : float
}.

Record CrawlSubUrlsResult := {
  cs_task_id : string;
  cs_url : string;
  cs_sub_urls : list string;
  cs_metadata : MetaValue;
  cs_success : bool;
  cs_execution_time_seconds : float;
  cs_urls_found : nat;
  cs_crawl_depth : Z;
  cs_max_pages : Z;
  cs_strategy : string
}.

(** ** Effects: the world, the service instance, exceptions *)

Inductive outcome (A : Type) :=
| Returned (a : A)
| Raised (msg : string).
Arguments Returned {A} a.
Arguments Raised {A} msg.

(** The external collaborators over a world [W] and a crawler handle [C]:
    [AsyncWebCrawler(config=...)], its method [arun] (called once with a
    plain run configuration, once with a deep-crawl one whose stream is
    collected into a list), [time.time] and [uuid.uuid4]. *)
Class Collaborators (W C : Type) := {
  settings : Config.Settings;
  time_time : W -> float * W;
  uuid4 : W -> string * W;
  AsyncWebCrawler : W -> outcome C * W;
  arun : C -> string -> CrawlerRunConfig -> W -> outcome CrawlResult * W;
  arun_deep : C -> string -> DeepRunConfig -> W -> outcome (list CrawlResult) * W
}.

(** The service instance ([self.crawler]) together with the world. *)
Record State (W C : Type) := {
  crawler : option C;
  world : W
}.
Arguments crawler {W C} _.
Arguments world {W C} _.

Definition M (W C A : Type) : Type := State W C -> outcome A * State W C.

Definition ret {W C A} (a : A) : M W C A := fun st => (Returned a, st).

Definition raise {W C A} (msg : string) : M W C A := fun st => (Raised msg, st).

Definition bind {W C A B} (m : M W C A) (k : A -> M W C B) : M W C B :=
  fun st =>
    match m st with
    | (Returned a, st') => k a st'
    | (Raised msg, st') => (Raised msg, st')
    end.

(** [try: body / except Exception as e: handler(e)]; what the body did to
    the world before raising stays done. *)
Definition try_except {W C A} (body : M W C A) (handler : string -> M W C A)
  : M W C A :=
  fun st =>
    match body st with
    | (Returned a, st') => (Returned a, st')
    | (Raised msg, st') => handler msg st'
    end.

(** An external call that cannot raise. *)
Definition call {W C A} (f : W -> A * W) : M W C A :=
  fun st => let '(a, w) := f (world st) in
            (Returned a, {| crawler := crawler st; world := w |}).

(** An external call that may raise. *)
Definition call_exn {W C A} (f : W -> outcome A * W) : M W C A :=
  fun st => let '(o, w) := f (world st) in
            (o, {| crawler := crawler st; world := w |}).

(** Read [self.crawler]. *)
Definition get_crawler {W C} : M W C (option C) :=
  fun st => (Returned (crawler st), st).

(** A computation that touches neither the world nor the service. *)
Definition of_outcome {W C A} (o : outcome A) : M W C A := fun st => (o, st).

Notation "'do' x <~ m ; k" := (bind m (fun x => k))
  (at level 10, x name, m at level 100, k at level 200).

(** [for x in xs: acc.append(body(x))] for a body that may raise. *)
Fixpoint for_each {W C A B} (body : A -> M W C B) (xs : list A) : M W C (list B) :=
  match xs with
  | [] => ret []
  | x :: rest =>
      do b <~ body x;
      do bs <~ for_each body rest;
      ret (b :: bs)
  end.

(** The call [self._extract_content(result, content_type)] of line 169,
    with whatever [content_type] the keyword arguments hold.  For one of
    the four names it is [_extract_content].  For [None] the comparison
    with the string all is false and line 369 evaluates
    [hasattr(result, None)], which raises [TypeError] whatever the result
    is: the attribute name must be a string. *)
Definition _extract_content_call (r : CrawlResult) (content_type : option ContentType)
  : outcome Content :=
  match content_type with
  | Some name => Returned (_extract_content r name)
  | None => Raised "attribute name must be string, not 'NoneType'"
  end.

(** ** [app/utils.py] *)

(** The two fields of [urlparse]'s result that [validate_url] reads. *)
Record ParseResult := { scheme : string; netloc : string }.

(** [urllib.parse], external; both functions may raise [ValueError]. *)
Class UrlLib := {
  urlparse : string -> outcome ParseResult;
  urljoin : string -> string -> outcome string
}.

Definition validate_url {lib : UrlLib} (url : string) : bool :=
  match urlparse url with
  | Returned result => Py.str_truthy (scheme result) && Py.str_truthy (netloc result)
  | Raised _ => false
  end.

(** [base_url] is [Optional[str]]: [None] and the empty string are
    falsy. *)
Definition normalize_url {lib : UrlLib} (url : string) (base_url : option string)
  : outcome string :=
  match base_url with
  | Some base =>
      if Py.str_truthy base && negb (Py.startswith_http url)
      then urljoin base url
      else Returned url
  | None => Returned url
  end.

(** ** [CrawlerService] *)

Section Service.

Context {W C : Type} `{Collaborators W C}.

(** [initialize]: on success [self.crawler] is the new crawler; an
    exception of the constructor is re-raised. *)
Definition initialize : M W C unit :=
  fun st =>
    match AsyncWebCrawler (world st) with
    | (Returned c, w) => (Returned tt, {| crawler := Some c; world := w |})
    | (Raised msg, w) => (Raised msg, {| crawler := crawler st; world := w |})
    end.

(** [if not self.crawler: await self.initialize()]. *)
Definition ensure_initialized : M W C unit :=
  do c <~ get_crawler;
  match c with
  | None => initialize
  | Some _ => ret tt
  end.

Definition _build_run_config (kwargs : Kwargs) : CrawlerRunConfig :=
  let extract_links := kwargs_get (kw_extract_links kwargs) (Config.extract_links settings) in
  let output_format := kwargs_get (kw_output_format kwargs) (Config.output_format settings) in
  {| check_robots_txt :=
       kwargs_get (kw_respect_robots_txt kwargs) (Config.respect_robots_txt settings);
     mean_delay := kwargs_get (kw_crawl_delay kwargs) (Config.crawl_delay settings);
     verbose := Config.browser_verbose settings;
     wait_until :=
       if kwargs_get (kw_wait_for_js kwargs) (Config.wait_for_js settings)
       then "domcontentloaded" else "load";
     page_timeout := kwargs_get (kw_js_timeout kwargs) (Config.js_timeout settings);
     exclude_external_links := negb extract_links;
     exclude_all_images :=
       negb (kwargs_get (kw_extract_images kwargs) (Config.extract_images settings));
     exclude_external_images :=
       negb (kwargs_get (kw_extract_images kwargs) (Config.extract_images settings));
     only_text := String.eqb output_format "text";
     prettiify := String.eqb output_format "html" |}.

Definition default_exclude_patterns : list string :=
  [ ".*login.*"; ".*signup.*"; ".*register.*"; ".*sign-in.*"; ".*sign-up.*";
    ".*auth.*"; ".*password.*"; ".*reset.*"; ".*logout.*"; ".*admin.*";
    ".*dashboard.*"; ".*profile.*"; ".*account.*"; ".*checkout.*"; ".*cart.*";
    ".*payment.*"; ".*billing.*"; ".*subscribe.*"; ".*newsletter.*";
    ".*contact.*"; ".*support.*"; ".*help.*"; ".*faq.*"; ".*sitemap.*";
    ".*robots.*";
    ".*\.(pdf|doc|docx|xls|xlsx|ppt|pptx|zip|rar|exe|dmg)$" ].

Definition _build_url_filter (exclude_patterns : option (list string)) : FilterChain :=
  let exclude_patterns :=
    match exclude_patterns with
    | Some (p :: ps) => p :: ps
    | _ => []
    end in
  let all_patterns := default_exclude_patterns ++ exclude_patterns in
  let url_filter := {| patterns := all_patterns |} in
  [url_filter].

(** Lines 159-195: the body of the loop of [crawl_urls]. *)
Definition crawl_one_url (kwargs : Kwargs) (run_config : CrawlerRunConfig)
    (url : string) : M W C UrlResult :=
  do url_start_time <~ call time_time;
  try_except
    (do c <~ get_crawler;
     match c with
     | None => raise "Crawler is None"
     | Some c =>
         do result <~ call_exn (arun c url run_config);
         let metadata := _extract_metadata result in
         let content_type := kwargs_get (kw_content_type kwargs) (Some ct_markdown) in
         do content <~ of_outcome (_extract_content_call result content_type);
         do url_end_time <~ call time_time;
         let url_execution_time := Py.round2 (PrimFloat.sub url_end_time url_start_time) in
         ret {| e_url := url;
                e_metadata := metadata;
                e_content := content;
                e_success := kwargs_get (r_success result) true;
                e_execution_time_seconds := url_execution_time;
                e_error := None |}
     end)
    (fun url_error =>
       do url_end_time <~ call time_time;
       let url_execution_time := Py.round2 (PrimFloat.sub url_end_time url_start_time) in
       ret {| e_url := url;
              e_metadata := [];
              e_content := ContentStr "";
              e_success := false;
              e_execution_time_seconds := url_execution_time;
              e_error := Some url_error |}).

Definition crawl_urls (urls : list string) (kwargs : Kwargs) : M W C CrawlUrlsResult :=
  do total_start_time <~ call time_time;
  try_except
    (do _ <~ ensure_initialized;
     do c <~ get_crawler;
     match c with
     | None => raise "Failed to initialize crawler"
     | Some _ =>
         let run_config := _build_run_config kwargs in
         let total_urls := length urls in
         do results <~ for_each (crawl_one_url kwargs run_config) urls;
         do total_end_time <~ call time_time;
         let total_execution_time := Py.round2 (PrimFloat.sub total_end_time total_start_time) in
         do task_id <~ call uuid4;
         ret {| cu_task_id := task_id;
                cu_results := results;
                cu_success := forallb e_success results;
                cu_total_execution_time_seconds := total_execution_time;
                cu_urls_processed := total_urls;
                cu_average_time_per_url :=
                  if (0 <? total_urls)%nat
                  then Py.round2 (PrimFloat.div total_execution_time
                                                (Py.float_of_int (Z.of_nat total_urls)))
                  else 0%float |}
     end)
    (fun e =>
       do total_end_time <~ call time_time;
       raise e).

(** Truth value of the [metadata] variable of [crawl_sub_urls]. *)
Definition meta_truthy (m : MetaValue) : bool :=
  match m with
  | MetaIsDict d => list_truthy d
  | MetaNotDict truthy => truthy
  end.

(** Lines 104-112: one round of the loop over the collected results. *)
Definition collect_result (url_acc : gset string * MetaValue) (result : CrawlResult)
  : gset string * MetaValue :=
  let '(all_urls, metadata) := url_acc in
  let all_urls :=
    match r_url result with
    | Some u => {[u]} ∪ all_urls
    | None => all_urls
    end in
  let metadata :=
    if negb (meta_truthy metadata) then
      match r_metadata result, r_title result with
      | Some m, _ => m
      | None, Some t => MetaIsDict [("title", t)]
      | None, None => metadata
      end
    else metadata in
  (all_urls, metadata).

Definition crawl_sub_urls (url : string) (kwargs : Kwargs) : M W C CrawlSubUrlsResult :=
  do total_start_time <~ call time_time;
  try_except
    (do _ <~ ensure_initialized;
     let depth := kwargs_get (kw_depth kwargs) (Config.deep_crawl_depth settings) in
     let max_pages := kwargs_get (kw_max_pages kwargs) (Config.deep_crawl_max_pages settings) in
     let strategy := kwargs_get (kw_strategy kwargs) (Config.deep_crawl_strategy settings) in
     let url_filter := _build_url_filter (Some (kwargs_get (kw_exclude_patterns kwargs) [])) in
     let crawl_strategy :=
       if String.eqb strategy "dfs" then
         {| strategy_kind := DFSDeepCrawlStrategy; max_depth := depth;
            max_pages := max_pages; filter_chain := None |}
       else if String.eqb strategy "best_first" then
         {| strategy_kind := BestFirstCrawlingStrategy; max_depth := depth;
            max_pages := max_pages; filter_chain := None |}
       else
         {| strategy_kind := BFSDeepCrawlStrategy; max_depth := depth;
            max_pages := max_pages; filter_chain := None |} in
     let config :=
       {| deep_crawl_strategy := crawl_strategy;
          stream := true;
          deep_verbose := Config.browser_verbose settings |} in
     do c <~ get_crawler;
     match c with
     | None => raise ""
     | Some c =>
         do results <~ call_exn (arun_deep c url config);
         let '(all_urls, metadata) := foldl collect_result (∅, MetaIsDict []) results in
         let sub_urls := filter (fun found_url => found_url <> url) (elements all_urls) in
         do total_end_time <~ call time_time;
         let execution_time := Py.round2 (PrimFloat.sub total_end_time total_start_time) in
         do task_id <~ call uuid4;
         ret {| cs_task_id := task_id;
                cs_url := url;
                cs_sub_urls := sub_urls;
                cs_metadata := metadata;
                cs_success := true;
                cs_execution_time_seconds := execution_time;
                cs_urls_found := length sub_urls;
                cs_crawl_depth := depth;
                cs_max_pages := max_pages;
                cs_strategy := strategy |}
     end)
    (fun e =>
       do total_end_time <~ call time_time;
       raise e).

End Service.

(** ** Notions used to state the properties *)

(** The value of [config] on line 84 of [crawl_sub_urls]: what the
    crawling library is given for a deep crawl. *)
Definition deep_crawl_config `{Collaborators W C} (kwargs : Kwargs) : DeepRunConfig :=
  let depth := kwargs_get (kw_depth kwargs) (Config.deep_crawl_depth settings) in
  let max_pages := kwargs_get (kw_max_pages kwargs) (Config.deep_crawl_max_pages settings) in
  let strategy := kwargs_get (kw_strategy kwargs) (Config.deep_crawl_strategy settings) in
  {| deep_crawl_strategy :=
       {| strategy_kind :=
            if String.eqb strategy "dfs" then DFSDeepCrawlStrategy
            else if String.eqb strategy "best_first" then BestFirstCrawlingStrategy
            else BFSDeepCrawlStrategy;
          max_depth := depth;
          max_pages := max_pages;
          filter_chain := None |};
     stream := true;
     deep_verbose := Config.browser_verbose settings |}.

(** The state in which [crawl_urls] and [crawl_sub_urls] enter their
    [try] block: after the first clock reading. *)
Definition after_clock `{Collaborators W C} (st : State W C) : State W C :=
  {| crawler := crawler st; world := snd (time_time (world st)) |}.

(** What the fetch inside the [try] block of the loop body yields when
    the body starts in state [st]. *)
Definition fetch_outcome `{Collaborators W C} (run_config : CrawlerRunConfig)
    (url : string) (st : State W C) : outcome CrawlResult :=
  match crawler st with
  | None => Raised "Crawler is None"
  | Some c => fst (arun c url run_config (world (after_clock st)))
  end.

(** The state reached once the loop of [crawl_urls] has handled [pre]. *)
Definition state_after `{Collaborators W C} (kwargs : Kwargs)
    (run_config : CrawlerRunConfig) (pre : list string) (st : State W C) : State W C :=
  snd (for_each (crawl_one_url kwargs run_config) pre st).

(** What the [try] block of the loop body does up to the second clock
    reading when the body starts in state [st]: it raises, in the fetch or
    in the extraction of the content, or it has a fetched result and the
    content extracted from it. *)
Definition processing_outcome `{Collaborators W C} (kwargs : Kwargs)
    (run_config : CrawlerRunConfig) (url : string) (st : State W C)
  : outcome (CrawlResult * Content) :=
  match fetch_outcome run_config url st with
  | Raised msg => Raised msg
  | Returned result =>
      match _extract_content_call result
              (kwargs_get (kw_content_type kwargs) (Some ct_markdown)) with
      | Raised msg => Raised msg
      | Returned content => Returned (result, content)
      end
  end.

(** What the loop body of [crawl_urls] records for [url] when the
    processing had the outcome [o]: the branch of the [try] statement
    that ran. *)
Definition entry_reports (url : string)
    (o : outcome (CrawlResult * Content)) (e : UrlResult) : Prop :=
  e_url e = url /\
  match o with
  | Raised msg =>
      e_error e = Some msg /\ e_success e = false
      /\ e_content e = ContentStr "" /\ e_metadata e = []
  | Returned (result, content) =>
      e_error e = None /\ e_success e = kwargs_get (r_success result) true
      /\ e_content e = content
      /\ e_metadata e = _extract_metadata result
  end.

(** The value an effectful computation returns, if it returns. *)
Definition returned {W C A} (r : outcome A * State W C) : option A :=
  match fst r with
  | Returned a => Some a
  | Raised _ => None
  end.

(** Order-preserving deduplication as the specification words it: every
    element is kept where it is first seen. *)
Fixpoint first_seen (l : list string) : list string :=
  match l with
  | [] => []
  | x :: l' => x :: filter (fun y => y <> x) (first_seen l')
  end.

(** A content representation as the specification sees it: the canonical
    field, else the field under its alternate name. *)
Definition representation (r : CrawlResult) (name : string) : string :=
  if Py.attr_truthy (getattr r name) then Py.attr_str (getattr r name)
  else Py.attr_str (getattr r (name +:+ "_content")).

(** The first non-empty string of a list, the empty string if none. *)
Fixpoint first_nonempty (l : list string) : string :=
  match l with
  | [] => ""
  | s :: rest => if Py.str_truthy s then s else first_nonempty rest
  end.

(** What the dict of [content_type = "all"] must answer for [key]: the
    representation for the keys markdown, html and text when it is not
    empty, no entry in every other case. *)
Definition all_content_lookup (r : CrawlResult) (key : string) : option string :=
  if existsb (fun name => String.eqb name key) ["markdown"; "html"; "text"]
     && Py.str_truthy (representation r key)
  then Some (representation r key) else None.

(** [extractContent] for a single format, following the words of the
    specification: the requested representation, else the first
    non-empty one of markdown, html, text, else the empty string. *)
Definition extractContent_spec (r : CrawlResult) (requested : ContentType) : string :=
  first_nonempty
    [ representation r (ct_name requested);
      representation r "markdown"; representation r "html"; representation r "text" ].

(** [extractMetadata] following the words of the specification: the
    first of the three strategies that produces something wins, and the
    heading is looked for in the markdown or html content. *)
Definition extractMetadata_spec (r : CrawlResult) : MetaDict :=
  match r_metadata r with
  | Some (MetaIsDict (kv :: d)) => kv :: d
  | _ =>
      match r_title r with
      | Some t => [("title", t)]
      | None =>
          match Re.search_heading (first_nonempty
                  [ representation r "markdown"; representation r "html" ]) with
          | Some g => [("title", Some g)]
          | None => []
          end
      end
  end.

(** ** A scripted world for running the service on concrete inputs

    The world counts the external calls made so far; the clock shows that
    count in seconds. *)

Definition page (url : string) (markdown : string) (ok : option bool) : CrawlResult :=
  {| r_url := Some url; r_metadata := None; r_title := None; r_links := None;
     r_markdown := Some (Some markdown); r_html := None; r_text := None;
     r_markdown_content := None; r_html_content := None;
     r_text_content := None; r_success := ok |}.

Definition scripted_arun (url : string) : outcome CrawlResult :=
  if String.eqb url "https://down.test" then Raised "net::ERR_CONNECTION_REFUSED"
  else if String.eqb url "https://soft.test" then Returned (page url "" (Some false))
  else Returned (page url "# Welcome" None).

#[local] Instance scripted : Collaborators nat unit := {|
  settings := Config.defaults;
  time_time := fun n => (Py.float_of_int (Z.of_nat n), S n);
  uuid4 := fun n => ("6f1c0a52-3b7e-4d1a-9c55-0e2f8a4b7d10", S n);
  AsyncWebCrawler := fun n => (Returned tt, S n);
  arun := fun _ url _ n => (scripted_arun url, S n);
  arun_deep := fun _ url _ n =>
    (Returned [ page url "# Home" None; page (url +:+ "/login") "# Sign in" None ], S n)
|}.

(** The same world with no browser installed: the constructor raises. *)
Definition offline : Collaborators nat unit :=
  {| settings := Config.defaults;
     time_time := fun n => (Py.float_of_int (Z.of_nat n), S n);
     uuid4 := fun n => ("6f1c0a52-3b7e-4d1a-9c55-0e2f8a4b7d10", S n);
     AsyncWebCrawler := fun n => (Raised "BrowserType.launch: executable not found", S n);
     arun := fun _ url _ n => (scripted_arun url, S n);
     arun_deep := fun _ url _ n => (Returned [], S n) |}.

(** A scripted [urllib.parse]: the answers of the library on the inputs
    used below; any other input is not scripted. *)
#[local] Instance scripted_urllib : UrlLib := {|
  urlparse := fun url =>
    if String.eqb url "no scheme no host"
    then Returned {| scheme := ""; netloc := "" |}
    else if String.eqb url "https://example.com/docs/guide#intro"
    then Returned {| scheme := "https"; netloc := "example.com" |}
    else Raised "not scripted";
  urljoin := fun base url =>
    if String.eqb base "https://example.com/docs/" && String.eqb url "guide#intro"
    then Returned "https://example.com/docs/guide#intro"
    else Raised "not scripted"
|}.

(** A fresh service ([self.crawler] is [None]) in a fresh world. *)
Definition fresh : State nat unit := {| crawler := None; world := 0 |}.

(** The character [034], the double quote. *)
Definition dquote : string := String "034"%char "".

(** The anchor of the extraction example, with its double quotes. *)
Definition anchor_html : string :=
  "<a href=" +:+ dquote +:+ "https://x.com/a" +:+ dquote +:+ ">".

(** An outcome whose only attribute is [html]. *)
Definition html_only (html : string) : CrawlResult :=
  {| r_url := None; r_metadata := None; r_title := None; r_links := None;
     r_markdown := None; r_html := Some (Some html); r_text := None;
     r_markdown_content := None; r_html_content := None;
     r_text_content := None; r_success := None |}.

(** An outcome whose only attribute is a structured [links] list. *)
Definition links_only (links : list string) : CrawlResult :=
  {| r_url := None; r_metadata := None; r_title := None;
     r_links := Some (LinksList links);
     r_markdown := None; r_html := None; r_text := None;
     r_markdown_content := None; r_html_content := None;
     r_text_content := None; r_success := None |}.

(** An outcome that uses both families of field names: html under its
    alternate name, text under its canonical one. *)
Definition mixed_names : CrawlResult :=
  {| r_url := None; r_metadata := None; r_title := None; r_links := None;
     r_markdown := None; r_html := None; r_text := Some (Some "T");
     r_markdown_content := None; r_html_content := Some (Some "H");
     r_text_content := None; r_success := None |}.

(** An outcome with an empty metadata dict and a title. *)
Definition empty_meta_with_title : CrawlResult :=
  {| r_url := None; r_metadata := Some (MetaIsDict []); r_title := Some (Some "T");
     r_links := None;
     r_markdown := None; r_html := None; r_text := None;
     r_markdown_content := None; r_html_content := None;
     r_text_content := None; r_success := None |}.

(** [r] with its two html attributes and two text attributes replaced. *)
Definition with_html_text (r : CrawlResult)
    (html html_content text text_content : option (option string)) : CrawlResult :=
  {| r_url := r_url r; r_metadata := r_metadata r; r_title := r_title r;
     r_links := r_links r;
     r_markdown := r_markdown r; r_html := html; r_text := text;
     r_markdown_content := r_markdown_content r; r_html_content := html_content;
     r_text_content := text_content; r_success := r_success r |}.

(** [kwargs] with its [exclude_patterns] entry replaced. *)
Definition with_exclude_patterns (kwargs : Kwargs) (pats : option (list string)) : Kwargs :=
  {| kw_depth := kw_depth kwargs; kw_max_pages := kw_max_pages kwargs;
     kw_strategy := kw_strategy kwargs; kw_exclude_patterns := pats;
     kw_extract_links := kw_extract_links kwargs;
     kw_extract_images := kw_extract_images kwargs;
     kw_output_format := kw_output_format kwargs;
     kw_content_type := kw_content_type kwargs;
     kw_wait_for_js := kw_wait_for_js kwargs; kw_js_timeout := kw_js_timeout kwargs;
     kw_crawl_delay := kw_crawl_delay kwargs;
     kw_respect_robots_txt := kw_respect_robots_txt kwargs |}.

(** The newline character as a string. *)
Definition newline : string := String "010"%char "".

(** A heading text: not empty, no newline in it, no whitespace in front. *)
Definition heading_text (t : string) : Prop :=
  match t with
  | EmptyString => False
  | String c _ => Py.isspace c = false
  end /\ Py.take_while Re.not_newline t = t.

(** The heading pattern, read off the text.  The places where [^] holds
    under [re.MULTILINE] are the start of the text and what follows each
    newline; [line_starts s] lists what remains of [s] at each of them,
    leftmost first. *)
Fixpoint after_newlines (s : string) : list string :=
  match s with
  | EmptyString => []
  | String c s' =>
      if Ascii.eqb c "010"%char then s' :: after_newlines s' else after_newlines s'
  end.

Definition line_starts (s : string) : list string := s :: after_newlines s.

(** The last character of [w] that is not a newline. *)
Fixpoint last_non_newline (w : string) : option ascii :=
  match w with
  | EmptyString => None
  | String c w' =>
      match last_non_newline w' with
      | Some x => Some x
      | None => if Re.not_newline c then Some c else None
      end
  end.

(** The title the pattern finds when it is tried at a line start, [line]
    being the text from there on.  After the hash sign comes the longest
    run of whitespace, newlines included; it must not be empty.  When a
    character follows the run, the title is the rest of the line that
    character is on.  When the run reaches the end of the text, the title
    is the last of its characters, the first left aside, that is not a
    newline, if there is one. *)
Definition heading_at (line : string) : option string :=
  match line with
  | String "#"%char after_hash =>
      match Py.take_while Py.isspace after_hash, Py.drop_while Py.isspace after_hash with
      | EmptyString, _ => None
      | String _ _, String c rest => Some (Py.take_while Re.not_newline (String c rest))
      | String _ more, EmptyString => (fun c => String c "") <$> last_non_newline more
      end
  | _ => None
  end.

(** The first answer of a list of attempts. *)
Fixpoint first_some {A} (attempts : list (option A)) : option A :=
  match attempts with
  | [] => None
  | Some a :: _ => Some a
  | None :: rest => first_some rest
  end.

(** ** More of [app/utils.py] *)

Definition extract_domain {lib : UrlLib} (url : string) : string :=
  match urlparse url with
  | Returned result => netloc result
  | Raised _ => ""
  end.

Definition is_same_domain {lib : UrlLib} (url1 url2 : string) : bool :=
  String.eqb (extract_domain url1) (extract_domain url2).

(** The characters of the class in the pattern of [sanitize_filename]:
    less-than, greater-than, colon, double quote, slash, backslash,
    vertical bar, question mark and star. *)
Definition is_invalid_filename_char (c : ascii) : bool :=
  existsb (Ascii.eqb c)
    [ "<"%char; ">"%char; ":"%char; "034"%char; "/"%char; "\"%char;
      "|"%char; "?"%char; "*"%char ].

(** [re.sub(pattern, '_', filename)] for that one-character class. *)
Fixpoint replace_invalid_chars (filename : string) : string :=
  match filename with
  | EmptyString => ""
  | String c rest =>
      String (if is_invalid_filename_char c then "_"%char else c)
             (replace_invalid_chars rest)
  end.

(** The slice [s[:n]]. *)
Fixpoint slice_to (n : nat) (s : string) : string :=
  match n, s with
  | S k, String c rest => String c (slice_to k rest)
  | _, _ => ""
  end.

Definition sanitize_filename (filename : string) : string :=
  let filename := replace_invalid_chars filename in
  if (255 <? String.length filename)%nat then slice_to 255 filename else filename.

(** Line 82, [delay = base_delay * (2 ** attempt)]: the power is an
    [int], which the product with a [float] converts to a [float] first;
    the conversion raises [OverflowError] from [2 ** 1024] on. *)
Definition backoff_delay (base_delay : float) (attempt : nat) : outcome float :=
  if Py.int_fits_float (2 ^ Z.of_nat attempt)
  then Returned (PrimFloat.mul base_delay (Py.float_of_int (2 ^ Z.of_nat attempt)))
  else Raised "int too large to convert to float".

(** The loop of [sync_retry] (and of [async_retry], which differs only in
    how it sleeps) inside [retry_with_backoff].  [func attempt] is what
    the call of the wrapped function made in round [attempt] does, and
    [sleep] is [time.sleep], which raises on delays it does not accept (a
    negative one, for instance); [remaining] counts the rounds of
    [range(max_retries)] still to run.  The delay is computed and slept
    inside the [except] block, so an exception of either leaves the
    wrapper.  The result is what the wrapper returns ([None] when the
    loop ends without returning) or raises, with the delays it passed to
    [sleep], in order. *)
Fixpoint retry_rounds {A} (sleep : float -> outcome unit) (func : nat -> outcome A)
    (max_retries : Z) (base_delay : float)
    (remaining attempt : nat) : outcome (option A) * list float :=
  match remaining with
  | O => (Returned None, [])
  | S remaining' =>
      match func attempt with
      | Returned a => (Returned (Some a), [])
      | Raised e =>
          if (Z.of_nat attempt =? max_retries - 1)%Z then (Raised e, [])
          else
            match backoff_delay base_delay attempt with
            | Raised overflow => (Raised overflow, [])
            | Returned delay =>
                match sleep delay with
                | Raised refused => (Raised refused, [delay])
                | Returned _ =>
                    let '(o, delays) :=
                      retry_rounds sleep func max_retries base_delay
                                   remaining' (S attempt) in
                    (o, delay :: delays)
                end
            end
      end
  end.

Definition sync_retry {A} (sleep : float -> outcome unit) (func : nat -> outcome A)
    (max_retries : Z) (base_delay : float)
  : outcome (option A) * list float :=
  retry_rounds sleep func max_retries base_delay (Z.to_nat max_retries) 0.

(** The delays of an exponential backoff: [base_delay * 2 ** attempt] for
    the first [k] attempts. *)
Definition backoff_delays (base_delay : float) (k : nat) : list float :=
  (fun attempt =>
     PrimFloat.mul base_delay (Py.float_of_int (2 ^ Z.of_nat attempt))) <$> seq 0 k.

(** A [time.sleep] that never raises, and one that refuses negative
    delays as [time.sleep] does. *)
Definition patient_sleep (delay : float) : outcome unit := Returned tt.

Definition strict_sleep (delay : float) : outcome unit :=
  if PrimFloat.ltb delay 0%float
  then Raised "sleep length must be non-negative"
  else Returned tt.

(** Every character of [s] satisfies [p]. *)
Fixpoint string_forallb (p : ascii -> bool) (s : string) : bool :=
  match s with
  | EmptyString => true
  | String c rest => p c && string_forallb p rest
  end.

(** A file name with none of the characters [sanitize_filename] replaces. *)
Definition safe_filename (s : string) : bool :=
  string_forallb (fun c => negb (is_invalid_filename_char c)) s.

(** ** More of [CrawlerService]: shutdown and health *)

(** [shutdown]: [close] is the crawler's [close] method, which may
    raise; the exception is logged and swallowed.  [self.crawler] is
    not reset. *)
Definition shutdown {W C : Type} (close : C -> W -> outcome unit * W) : M W C unit :=
  do c <~ get_crawler;
  match c with
  | Some c => try_except (call_exn (close c)) (fun e => ret tt)
  | None => ret tt
  end.

Record HealthStatus := {
  h_status : string;
  h_timestamp : float;
  h_crawler_ready : bool
}.

(** [get_health_status]: [loop_time] is the event loop's clock. *)
Definition get_health_status {W C : Type} (loop_time : W -> float * W) : M W C HealthStatus :=
  do timestamp <~ call loop_time;
  do c <~ get_crawler;
  ret {| h_status := "healthy";
         h_timestamp := timestamp;
         h_crawler_ready := match c with Some _ => true | None => false end |}.

(** What one result of the traversal offers to the [metadata] variable of
    [crawl_sub_urls] (lines 109-112): its [metadata] attribute, else a
    dict made of its [title] attribute, else nothing. *)
Definition offered_metadata (result : CrawlResult) : option MetaValue :=
  match r_metadata result, r_title result with
  | Some m, _ => Some m
  | None, Some t => Some (MetaIsDict [("title", t)])
  | None, None => None
  end.

(** A result offers nothing truthy. *)
Definition offers_nothing (result : CrawlResult) : Prop :=
  match offered_metadata result with
  | Some m => meta_truthy m = false
  | None => True
  end.

(** ** [app/routes.py]: the two crawl endpoints

    A request is modelled with every field given: the request models
    fill in their defaults for fields left out.  Every field of the two
    models is optional; [content_type], whose null value changes what the
    service does, is modelled with it, the other fields with the values
    their validators describe. *)

Record CrawlUrlsRequest := {
  cur_urls : list string;
  cur_extract_links : bool;
  cur_extract_images : bool;
  cur_output_format : string;
  cur_content_type : option ContentType;
  cur_wait_for_js : bool;
  cur_js_timeout : Z;
  cur_crawl_delay : float
}.

Record CrawlSubUrlsRequest := {
  csr_url : string;
  csr_depth : Z;
  csr_max_pages : Z;
  csr_strategy : string;
  csr_exclude_patterns : list string;
  csr_extract_links : bool;
  csr_extract_images : bool;
  csr_output_format : string;
  csr_wait_for_js : bool;
  csr_js_timeout : Z;
  csr_crawl_delay : float
}.

(** What a handler does: return a response body or raise
    [HTTPException(status_code, detail)]. *)
Inductive HttpResult (A : Type) :=
| Response (body : A)
| HTTPException (status_code : Z) (detail : string).
Arguments Response {A} body.
Arguments HTTPException {A} status_code detail.

(** The keyword arguments the handler [crawl_urls] passes on. *)
Definition crawl_urls_kwargs (request : CrawlUrlsRequest) : Kwargs :=
  {| kw_depth := None; kw_max_pages := None; kw_strategy := None;
     kw_exclude_patterns := None;
     kw_extract_links := Some (cur_extract_links request);
     kw_extract_images := Some (cur_extract_images request);
     kw_output_format := Some (cur_output_format request);
     kw_content_type := Some (cur_content_type request);
     kw_wait_for_js := Some (cur_wait_for_js request);
     kw_js_timeout := Some (cur_js_timeout request);
     kw_crawl_delay := Some (cur_crawl_delay request);
     kw_respect_robots_txt := None |}.

(** The keyword arguments the handler [crawl_suburls] passes on. *)
Definition crawl_suburls_kwargs (request : CrawlSubUrlsRequest) : Kwargs :=
  {| kw_depth := Some (csr_depth request);
     kw_max_pages := Some (csr_max_pages request);
     kw_strategy := Some (csr_strategy request);
     kw_exclude_patterns := Some (csr_exclude_patterns request);
     kw_extract_links := Some (csr_extract_links request);
     kw_extract_images := Some (csr_extract_images request);
     kw_output_format := Some (csr_output_format request);
     kw_content_type := None;
     kw_wait_for_js := Some (csr_wait_for_js request);
     kw_js_timeout := Some (csr_js_timeout request);
     kw_crawl_delay := Some (csr_crawl_delay request);
     kw_respect_robots_txt := None |}.

(** The handler [crawl_urls] of [routes.py].  Every dict the service
    returns fits [CrawlUrlsResponse], so building the response cannot
    fail. *)
Definition route_crawl_urls {W C : Type} `{Collaborators W C}
    (request : CrawlUrlsRequest) (st : State W C)
  : HttpResult CrawlUrlsResult * State W C :=
  match crawl_urls (cur_urls request) (crawl_urls_kwargs request) st with
  | (Returned result, st') => (Response result, st')
  | (Raised e, st') => (HTTPException 500 e, st')
  end.

(** Building [CrawlSubUrlsResponse] from the result dict: the field
    [metadata] is declared
    [Dict[str, Any]], so a value that is not a dict is a validation
    error, whose text [metadata_error] is the validation library's. *)
Definition CrawlSubUrlsResponse (metadata_error : string) (result : CrawlSubUrlsResult)
  : outcome CrawlSubUrlsResult :=
  match cs_metadata result with
  | MetaIsDict _ => Returned result
  | MetaNotDict _ => Raised metadata_error
  end.

(** The handler [crawl_suburls] of [routes.py]. *)
Definition route_crawl_suburls {W C : Type} `{Collaborators W C}
    (metadata_error : string) (request : CrawlSubUrlsRequest) (st : State W C)
  : HttpResult CrawlSubUrlsResult * State W C :=
  match crawl_sub_urls (csr_url request) (crawl_suburls_kwargs request) st with
  | (Returned result, st') =>
      match CrawlSubUrlsResponse metadata_error result with
      | Returned response => (Response response, st')
      | Raised e => (HTTPException 500 e, st')
      end
  | (Raised e, st') => (HTTPException 500 e, st')
  end.

(** A traversal in which no page has metadata: the attribute is there and
    holds [None]. *)
Definition bare_page (url : string) : CrawlResult :=
  {| r_url := Some url; r_metadata := Some (MetaNotDict false); r_title := None;
     r_links := None;
     r_markdown := None; r_html := None; r_text := None;
     r_markdown_content := None; r_html_content := None;
     r_text_content := None; r_success := Some false |}.

Definition bare_traversal : Collaborators nat unit :=
  {| settings := Config.defaults;
     time_time := fun n => (Py.float_of_int (Z.of_nat n), S n);
     uuid4 := fun n => ("6f1c0a52-3b7e-4d1a-9c55-0e2f8a4b7d10", S n);
     AsyncWebCrawler := fun n => (Returned tt, S n);
     arun := fun _ url _ n => (scripted_arun url, S n);
     arun_deep := fun _ url _ n => (Returned [ bare_page url ], S n) |}.

(** A service whose crawler is ready. *)
Definition ready : State nat unit := {| crawler := Some tt; world := 0 |}.

(** A deep-crawl request with the defaults of the request model. *)
Definition default_suburls_request (url : string) : CrawlSubUrlsRequest :=
  {| csr_url := url; csr_depth := 5; csr_max_pages := 10;
     csr_strategy := "best_first"; csr_exclude_patterns := [];
     csr_extract_links := true; csr_extract_images := true;
     csr_output_format := "markdown"; csr_wait_for_js := true;
     csr_js_timeout := 8000; csr_crawl_delay := 1%float |}.

(** A batch request with the defaults of the request model. *)
Definition default_urls_request (urls : list string) : CrawlUrlsRequest :=
  {| cur_urls := urls; cur_extract_links := true; cur_extract_images := true;
     cur_output_format := "markdown"; cur_content_type := Some ct_markdown;
     cur_wait_for_js := true; cur_js_timeout := 8000; cur_crawl_delay := 1%float |}.

(** A page with a metadata dict. *)
Definition described_page (url title : string) : CrawlResult :=
  {| r_url := Some url; r_metadata := Some (MetaIsDict [("title", Some title)]);
     r_title := None; r_links := None;
     r_markdown := None; r_html := None; r_text := None;
     r_markdown_content := None; r_html_content := None;
     r_text_content := None; r_success := Some true |}.

(** A traversal whose seed page has no metadata and whose later pages
    have some. *)
Definition described_traversal : Collaborators nat unit :=
  {| settings := Config.defaults;
     time_time := fun n => (Py.float_of_int (Z.of_nat n), S n);
     uuid4 := fun n => ("6f1c0a52-3b7e-4d1a-9c55-0e2f8a4b7d10", S n);
     AsyncWebCrawler := fun n => (Returned tt, S n);
     arun := fun _ url _ n => (scripted_arun url, S n);
     arun_deep := fun _ url _ n =>
       (Returned [ bare_page url;
                   described_page (url +:+ "/docs") "Docs";
                   described_page (url +:+ "/blog") "Blog" ], S n) |}.

(** A deep-crawl call with a strategy name the service does not know. *)
(** Keyword arguments whose [content_type] is null. *)
Definition null_content_type_kwargs : Kwargs :=
  {| kw_depth := None; kw_max_pages := None; kw_strategy := None;
     kw_exclude_patterns := None; kw_extract_links := None;
     kw_extract_images := None; kw_output_format := None;
     kw_content_type := Some None; kw_wait_for_js := None; kw_js_timeout := None;
     kw_crawl_delay := None; kw_respect_robots_txt := None |}.

Definition random_strategy_kwargs : Kwargs :=
  crawl_suburls_kwargs
    {| csr_url := "https://example.com"; csr_depth := 2; csr_max_pages := 5;
       csr_strategy := "random"; csr_exclude_patterns := [];
       csr_extract_links := true; csr_extract_images := true;
       csr_output_format := "markdown"; csr_wait_for_js := true;
       csr_js_timeout := 8000; csr_crawl_delay := 1%float |}.

(** * Properties *)

(** ** URL normalisation ([app/utils.py]) *)

Lemma normalize_url_absolute {lib : UrlLib} (url : string) (base_url : option string) :
  Py.startswith_http url = true -> normalize_url url base_url = Returned url.
Proof.
  intros Habs. unfold normalize_url.
  destruct base_url as [base|]; [|reflexivity].
  rewrite Habs. now rewrite andb_false_r.
Qed.

Lemma normalize_url_no_base {lib : UrlLib} (url : string) (base_url : option string) :
  base_url = None \/ base_url = Some "" -> normalize_url url base_url = Returned url.
Proof. intros [-> | ->]; reflexivity. Qed.

(** C2, as the code has it: [normalize_url] returns [url] itself when it
    starts with http:// or https://, or when no non-empty base is given;
    in every other case it returns whatever [urljoin(base_url, url)]
    yields.  It never validates the result and never removes a
    fragment. *)
Theorem normalize_url_resolves_only {lib : UrlLib} (url : string) (base_url : option string) :
  (Py.startswith_http url = true -> normalize_url url base_url = Returned url)
  /\ (base_url = None \/ base_url = Some "" -> normalize_url url base_url = Returned url)
  /\ (forall base, base_url = Some base -> base <> "" ->
        Py.startswith_http url = false ->
        normalize_url url base_url = urljoin base url).
Proof.
  split; [apply normalize_url_absolute|].
  split; [apply normalize_url_no_base|].
  intros base -> Hbase Hrel. unfold normalize_url.
  rewrite Hrel. destruct base; [congruence | reflexivity].
Qed.

(** C2 on a relative link with a fragment: the link is resolved against
    the base, and the fragment is still there. *)
Lemma normalize_url_resolves_only_witness :
  normalize_url (lib := scripted_urllib) "guide#intro" (Some "https://example.com/docs/")
  = Returned "https://example.com/docs/guide#intro".
Proof.
  destruct (normalize_url_resolves_only (lib := scripted_urllib)
              "guide#intro" (Some "https://example.com/docs/")) as (_ & _ & Hjoin).
  rewrite (Hjoin "https://example.com/docs/" eq_refl ltac:(discriminate) eq_refl).
  reflexivity.
Defined.

(** C2, refuted as stated: a fragment survives normalisation, and a text
    with neither scheme nor host, which [validate_url] rejects, is
    returned without any error. *)
Lemma normalize_url_keeps_fragment_and_accepts_anything :
  (forall lib : UrlLib,
     normalize_url (lib := lib) "https://example.com/page#top"
                   (Some "https://example.com/")
     = Returned "https://example.com/page#top")
  /\ normalize_url (lib := scripted_urllib) "guide#intro"
                   (Some "https://example.com/docs/")
     = Returned "https://example.com/docs/guide#intro"
  /\ validate_url (lib := scripted_urllib) "no scheme no host" = false
  /\ (forall lib : UrlLib,
       normalize_url (lib := lib) "no scheme no host" None
       = Returned "no scheme no host").
Proof. repeat split; intros; reflexivity. Qed.

(** ** Content extraction ([_extract_content]) *)

Lemma attr_truthy_str (a : option (option string)) :
  Py.attr_truthy a = Py.str_truthy (Py.attr_str a).
Proof. destruct a as [[s|]|]; reflexivity. Qed.

Ltac by_string_cases :=
  repeat match goal with
         | |- context [Py.attr_truthy ?a] => rewrite (attr_truthy_str a)
         end;
  repeat match goal with
         | |- context [Py.attr_str ?a] =>
             let s := fresh "s" in
             generalize (Py.attr_str a); intros s; destruct s
         end;
  try reflexivity.

Lemma extract_content_chain (r : CrawlResult) (content_type : ContentType) :
  content_type <> ct_all ->
  _extract_content r content_type =
  ContentStr (first_nonempty
    [ Py.attr_str (getattr r (ct_name content_type));
      Py.attr_str (getattr r (ct_name content_type +:+ "_content"));
      Py.attr_str (r_markdown r); Py.attr_str (r_html r); Py.attr_str (r_text r);
      Py.attr_str (r_markdown_content r); Py.attr_str (r_html_content r);
      Py.attr_str (r_text_content r) ]).
Proof.
  intros Hsingle.
  destruct content_type; try congruence; clear Hsingle;
    unfold _extract_content; cbv [ct_name String.append]; cbn; by_string_cases.
Qed.

(** C5, as the code has it: for a single requested format the result is
    the first non-empty field in this order: the requested field under
    its canonical name, the requested field under its alternate name,
    then markdown, html, text under their canonical names, then
    markdown, html, text under their alternate names; the empty string
    when all are absent or empty.  On an outcome that uses only one of the
    two families of names this is exactly the fallback the specification
    words. *)
Theorem extract_content_fallback_order (r : CrawlResult) (content_type : ContentType) :
  content_type <> ct_all ->
  _extract_content r content_type =
    ContentStr (first_nonempty
      [ Py.attr_str (getattr r (ct_name content_type));
        Py.attr_str (getattr r (ct_name content_type +:+ "_content"));
        Py.attr_str (r_markdown r); Py.attr_str (r_html r); Py.attr_str (r_text r);
        Py.attr_str (r_markdown_content r); Py.attr_str (r_html_content r);
        Py.attr_str (r_text_content r) ])
  /\ (Py.attr_truthy (r_markdown_content r) = false ->
      Py.attr_truthy (r_html_content r) = false ->
      Py.attr_truthy (r_text_content r) = false ->
      _extract_content r content_type = ContentStr (extractContent_spec r content_type))
  /\ (Py.attr_truthy (r_markdown r) = false ->
      Py.attr_truthy (r_html r) = false ->
      Py.attr_truthy (r_text r) = false ->
      _extract_content r content_type = ContentStr (extractContent_spec r content_type)).
Proof.
  intros Hsingle. split; [now apply extract_content_chain|].
  rewrite (extract_content_chain r content_type Hsingle).
  unfold extractContent_spec, representation.
  split; intros Hm Hh Ht; rewrite attr_truthy_str in Hm, Hh, Ht;
    destruct content_type; try congruence;
    cbv [ct_name String.append]; cbn;
    cbn in Hm, Hh, Ht; revert Hm Hh Ht;
    repeat match goal with
           | |- context [Py.attr_truthy ?a] => rewrite (attr_truthy_str a)
           end;
    repeat match goal with
           | |- context [Py.attr_str ?a] =>
               let s := fresh "s" in
               generalize (Py.attr_str a); intros s; destruct s
           end;
    cbn; intros; congruence.
Qed.

(** The fallback order at work: html is requested, only text exists. *)
Lemma extract_content_fallback_order_witness :
  _extract_content (with_html_text bare_result None None (Some (Some "plain")) None) ct_html
  = ContentStr "plain".
Proof.
  destruct (extract_content_fallback_order
              (with_html_text bare_result None None (Some (Some "plain")) None)
              ct_html ltac:(discriminate)) as [_ [Hspec _]].
  exact (Hspec eq_refl eq_refl eq_refl).
Defined.

(** C5, refuted as stated: markdown is requested and absent, html exists
    under its alternate name and text under its canonical one.  The
    ordered fallback of the specification finds html first; the code
    returns the text. *)
Lemma extract_content_mixed_names_prefers_text :
  _extract_content mixed_names ct_markdown = ContentStr "T"
  /\ extractContent_spec mixed_names ct_markdown = "H".
Proof. split; reflexivity. Qed.

(** The dict built for [content_type = "all"], case by case on the six
    fields: the canonical fields that are not empty in the order markdown,
    html, text, then the alternate ones whose key is still missing. *)
Lemma extract_content_all_dict (r : CrawlResult) :
  fill_alternate r (fill_canonical r)
  = (if Py.str_truthy (Py.attr_str (r_markdown r))
     then [("markdown", Py.attr_str (r_markdown r))] else [])
    ++ (if Py.str_truthy (Py.attr_str (r_html r))
        then [("html", Py.attr_str (r_html r))] else [])
    ++ (if Py.str_truthy (Py.attr_str (r_text r))
        then [("text", Py.attr_str (r_text r))] else [])
    ++ (if Py.str_truthy (Py.attr_str (r_markdown_content r))
           && negb (Py.str_truthy (Py.attr_str (r_markdown r)))
        then [("markdown", Py.attr_str (r_markdown_content r))] else [])
    ++ (if Py.str_truthy (Py.attr_str (r_html_content r))
           && negb (Py.str_truthy (Py.attr_str (r_html r)))
        then [("html", Py.attr_str (r_html_content r))] else [])
    ++ (if Py.str_truthy (Py.attr_str (r_text_content r))
           && negb (Py.str_truthy (Py.attr_str (r_text r)))
        then [("text", Py.attr_str (r_text_content r))] else []).
Proof.
  unfold fill_alternate, fill_canonical.
  cbv [foldl].
  change (Py.replace "markdown_content" "_content" "") with "markdown".
  change (Py.replace "html_content" "_content" "") with "html".
  change (Py.replace "text_content" "_content" "") with "text".
  cbn [getattr String.eqb Ascii.eqb Bool.eqb].
  by_string_cases.
Qed.

Lemma all_content_lookup_names (r : CrawlResult) (key : string) :
  all_content_lookup r key <> None ->
  key = "markdown" \/ key = "html" \/ key = "text".
Proof.
  unfold all_content_lookup. cbn [existsb]. rewrite !orb_false_r.
  destruct (String.eqb_spec "markdown" key) as [<-|_]; [now left|].
  destruct (String.eqb_spec "html" key) as [<-|_]; [now right; left|].
  destruct (String.eqb_spec "text" key) as [<-|_]; [now right; right|].
  cbn [orb andb]. congruence.
Qed.

(** For [content_type = "all"]: when none of markdown, html and text has
    a non-empty representation (canonical field first, else the alternate
    one) the result is the empty string; otherwise it is a dict without
    repeated keys that holds, under each of markdown, html and text, the
    representation when it is not empty, and nothing else: no entry for an
    empty representation, no entry under any other key. *)
Theorem extract_content_all_lookup (r : CrawlResult) :
  (all_content_lookup r "markdown" = None ->
   all_content_lookup r "html" = None ->
   all_content_lookup r "text" = None ->
   _extract_content r ct_all = ContentStr "")
  /\ (_extract_content r ct_all = ContentStr "" ->
      forall key, all_content_lookup r key = None)
  /\ (forall s, _extract_content r ct_all = ContentStr s -> s = "")
  /\ (forall d, _extract_content r ct_all = ContentDict d ->
        d <> [] /\ NoDup (fst <$> d)
        /\ forall key, dict_get d key = all_content_lookup r key)
  /\ (forall name, all_content_lookup r name <> None ->
        exists d, _extract_content r ct_all = ContentDict d).
Proof.
  assert (Hlookup : forall key,
    dict_get (fill_alternate r (fill_canonical r)) key = all_content_lookup r key).
  { intros key. rewrite extract_content_all_dict.
    unfold all_content_lookup, representation.
    cbn [existsb]. rewrite !orb_false_r.
    destruct (String.eqb_spec "markdown" key) as [<-|Hm];
      [|destruct (String.eqb_spec "html" key) as [<-|Hh];
        [|destruct (String.eqb_spec "text" key) as [<-|Ht]]].
    4: { cbn [orb andb].
         repeat match goal with
                | |- context [Py.attr_str ?a] =>
                    let s := fresh "s" in
                    generalize (Py.attr_str a); intros s; destruct s
                end.
         all: cbn [Py.str_truthy andb negb app dict_get].
         all: rewrite ?(proj2 (String.eqb_neq _ _) Hm), ?(proj2 (String.eqb_neq _ _) Hh),
                ?(proj2 (String.eqb_neq _ _) Ht).
         all: reflexivity. }
    all: cbv [String.append];
      cbn [getattr String.eqb Ascii.eqb Bool.eqb orb andb].
    all: repeat match goal with
                | |- context [Py.attr_truthy ?a] => rewrite (attr_truthy_str a)
                end.
    all: repeat match goal with
                | |- context [Py.attr_str ?a] =>
                    let s := fresh "s" in
                    generalize (Py.attr_str a); intros s; destruct s
                end.
    all: reflexivity. }
  assert (Hkeys : NoDup (fst <$> fill_alternate r (fill_canonical r))).
  { rewrite extract_content_all_dict.
    repeat match goal with
           | |- context [Py.attr_str ?a] =>
               let s := fresh "s" in
               generalize (Py.attr_str a); intros s; destruct s
           end.
    all: cbn; repeat constructor; rewrite ?elem_of_cons, ?elem_of_nil;
      intros Hin; repeat destruct Hin as [Hin|Hin]; try discriminate; exact Hin. }
  unfold _extract_content.
  destruct (fill_alternate r (fill_canonical r)) as [|[k v] d] eqn:Hd; cbn [list_truthy].
  - split; [reflexivity|]. split; [|split; [|split]].
    + intros _ key. rewrite <- Hlookup. reflexivity.
    + intros s [= <-]. reflexivity.
    + intros d [=].
    + intros name Hname. rewrite <- Hlookup in Hname. now contradict Hname.
  - assert (Hk : all_content_lookup r k = Some v).
    { rewrite <- Hlookup. cbn. now rewrite String.eqb_refl. }
    split; [|split; [|split; [|split]]].
    + intros Hm Hh Ht. exfalso.
      destruct (all_content_lookup_names r k) as [-> | [-> | ->] ]; congruence.
    + intros [=].
    + intros s [=].
    + intros d' [= <-]. split; [discriminate|]. split; [exact Hkeys | exact Hlookup].
    + intros name _. eauto.
Qed.

(** Markdown under its alternate name and text under its canonical one:
    the dict lists the text first, and has no html entry. *)
Lemma extract_content_all_lookup_witness :
  _extract_content
    (with_html_text (page "https://a.test" "" None) None None (Some (Some "plain")) None)
    ct_all
  = ContentDict [("text", "plain")].
Proof.
  destruct (extract_content_all_lookup
              (with_html_text (page "https://a.test" "" None)
                              None None (Some (Some "plain")) None))
    as [_ [_ [_ [_ Hdict]]]].
  destruct (Hdict "text" ltac:(discriminate)) as [d Hd].
  rewrite Hd. revert Hd. vm_compute. intros Hd. symmetry. exact Hd.
Defined.

(** ** Metadata extraction ([_extract_metadata]) *)

Lemma take_while_stops (p : ascii -> bool) (t : string) (c : ascii) (rest : string) :
  Py.take_while p t = t -> p c = false ->
  Py.take_while p (t +:+ String c rest) = t.
Proof.
  induction t as [|a t IH]; simpl; intros Ht Hc.
  - now rewrite Hc.
  - destruct (p a); [|discriminate].
    f_equal. apply IH; [congruence | exact Hc].
Qed.

Lemma search_heading_leading (t rest : string) :
  heading_text t ->
  Re.search_heading ("# " +:+ t +:+ newline +:+ rest) = Some t.
Proof.
  intros [Hfirst Hline].
  destruct t as [|c t]; [contradiction|].
  change ("# " +:+ String c t +:+ newline +:+ rest)
    with (String "#" (String " " (String c (t +:+ String "010"%char rest)))).
  unfold Re.search_heading.
  cbn [Re.search_heading_from Re.heading_here Re.spaces_then_title].
  change (Py.isspace " ") with true. cbn iota. rewrite Hfirst.
  unfold Re.dot_plus_eol.
  change (String c (t +:+ String "010"%char rest))
    with (String c t +:+ String "010"%char rest).
  rewrite take_while_stops by (exact Hline || reflexivity).
  reflexivity.
Qed.

Lemma search_heading_leading_last (t : string) :
  heading_text t -> Re.search_heading ("# " +:+ t) = Some t.
Proof.
  intros [Hfirst Hline].
  destruct t as [|c t]; [contradiction|].
  change ("# " +:+ String c t) with (String "#" (String " " (String c t))).
  unfold Re.search_heading.
  cbn [Re.search_heading_from Re.heading_here Re.spaces_then_title].
  change (Py.isspace " ") with true. cbn iota. rewrite Hfirst.
  unfold Re.dot_plus_eol. now rewrite Hline.
Qed.

Lemma isspace_not_newline (c : ascii) :
  Py.isspace c = false -> Re.not_newline c = true.
Proof.
  unfold Re.not_newline. destruct (Ascii.eqb_spec c "010"%char) as [->|_];
    [discriminate | reflexivity].
Qed.

Lemma last_non_newline_none (w : string) :
  last_non_newline w = None -> Py.take_while Re.not_newline w = "".
Proof.
  destruct w as [|c w]; [reflexivity|]. cbn.
  destruct (last_non_newline w); [discriminate|].
  destruct (Re.not_newline c); [discriminate | reflexivity].
Qed.

Lemma drop_while_nothing (p : ascii -> bool) (s : string) :
  Py.drop_while p s = "" -> Py.take_while p s = s.
Proof.
  induction s as [|c s IH]; [reflexivity|]. cbn.
  destruct (p c); [|discriminate]. intros Hs. now rewrite IH.
Qed.

(** The backtracking of the whitespace run, in closed form. *)
Lemma spaces_then_title_closed (s : string) :
  Re.spaces_then_title s
  = match Py.drop_while Py.isspace s with
    | String c rest => Some (Py.take_while Re.not_newline (String c rest))
    | EmptyString =>
        (fun c => String c "") <$> last_non_newline (Py.take_while Py.isspace s)
    end.
Proof.
  induction s as [|c s IH]; [reflexivity|].
  cbn [Re.spaces_then_title Py.drop_while Py.take_while].
  destruct (Py.isspace c) eqn:Hc.
  - rewrite IH. destruct (Py.drop_while Py.isspace s) as [|c' rest] eqn:Hdrop;
      [|reflexivity].
    cbn [last_non_newline].
    destruct (last_non_newline (Py.take_while Py.isspace s)) as [x|] eqn:Hlast;
      [reflexivity|].
    cbn [fmap option_fmap option_map].
    rewrite (drop_while_nothing _ _ Hdrop) in Hlast.
    unfold Re.dot_plus_eol. cbn [Py.take_while].
    destruct (Re.not_newline c); [|reflexivity].
    now rewrite (last_non_newline_none _ Hlast).
  - unfold Re.dot_plus_eol. cbn [Py.take_while].
    now rewrite (isspace_not_newline _ Hc).
Qed.

(** One attempt of the pattern at a line start finds what [heading_at]
    describes. *)
Lemma heading_here_closed (line : string) :
  Re.heading_here line = heading_at line.
Proof.
  destruct line as [|a body]; [reflexivity|].
  destruct a as [[] [] [] [] [] [] [] []]; try reflexivity.
  destruct body as [|c s]; [reflexivity|].
  cbn [Re.heading_here heading_at Py.take_while Py.drop_while].
  destruct (Py.isspace c); [|reflexivity].
  apply spaces_then_title_closed.
Qed.

(** The search tries the line starts from left to right. *)
Lemma search_heading_from_line_starts (bol : bool) (s : string) :
  Re.search_heading_from bol s
  = first_some (heading_at <$> ((if bol then [s] else []) ++ after_newlines s)).
Proof.
  revert bol. induction s as [|c s IH]; intros bol.
  - destruct bol; reflexivity.
  - cbn [Re.search_heading_from after_newlines]. rewrite IH.
    destruct bol; cbn [app fmap list_fmap first_some].
    + rewrite heading_here_closed.
      destruct (heading_at (String c s)); [reflexivity|].
      destruct (Ascii.eqb c "010"%char); reflexivity.
    + destruct (Ascii.eqb c "010"%char); reflexivity.
Qed.

Lemma search_heading_line_starts (s : string) :
  Re.search_heading s = first_some (heading_at <$> line_starts s).
Proof. apply (search_heading_from_line_starts true). Qed.

(** C4, as the code has it: the metadata attribute is returned whenever
    it is a dict (even an empty one); otherwise a title attribute, when
    there is one, gives the title whatever it holds; otherwise the first
    non-empty of markdown_content and markdown is searched for a heading,
    and the search result (possibly nothing) is final.  The html and text
    fields are never read.

    The search is that of the pattern under [re.MULTILINE]: the line
    starts of the text are tried from left to right, and the first one
    where [heading_at] finds a title gives it; the mapping is empty when
    none does.  So a leading heading line made of a hash sign, a space and
    a heading text yields that text; a heading on a later line is found as
    well; and since the whitespace after the hash sign may run over
    newlines, a hash sign alone on its line takes the next line that is
    not blank as its title. *)
Theorem extract_metadata_first_applicable (r : CrawlResult) :
  (forall d, r_metadata r = Some (MetaIsDict d) -> _extract_metadata r = d)
  /\ ((forall d, r_metadata r <> Some (MetaIsDict d)) ->
      (forall t, r_title r = Some t -> _extract_metadata r = [("title", t)])
      /\ (r_title r = None ->
          (Py.attr_truthy (r_markdown_content r) = true ->
           _extract_metadata r = title_of_heading (Py.attr_str (r_markdown_content r)))
          /\ (Py.attr_truthy (r_markdown_content r) = false ->
              Py.attr_truthy (r_markdown r) = true ->
              _extract_metadata r = title_of_heading (Py.attr_str (r_markdown r)))
          /\ (Py.attr_truthy (r_markdown_content r) = false ->
              Py.attr_truthy (r_markdown r) = false ->
              _extract_metadata r = [])))
  /\ (forall html html_content text text_content,
        _extract_metadata (with_html_text r html html_content text text_content)
        = _extract_metadata r)
  /\ (forall t rest, heading_text t ->
        title_of_heading ("# " +:+ t +:+ newline +:+ rest) = [("title", Some t)]
        /\ title_of_heading ("# " +:+ t) = [("title", Some t)])
  /\ (forall s,
        title_of_heading s
        = match first_some (heading_at <$> line_starts s) with
          | Some t => [("title", Some t)]
          | None => []
          end)
  /\ (forall s, (forall line, line ∈ line_starts s -> heading_at line = None) ->
        title_of_heading s = [])
  /\ title_of_heading ("Intro" +:+ newline +:+ "# Real" +:+ newline +:+ "# Late")
     = [("title", Some "Real")]
  /\ title_of_heading ("# " +:+ newline +:+ "Body" +:+ newline +:+ "# Real")
     = [("title", Some "Body")]
  /\ title_of_heading ("#Tag" +:+ newline +:+ "## Section") = [].
Proof.
  split; [|split; [|split; [|split; [|split; [|split]]]]].
  - intros d Hd. unfold _extract_metadata. now rewrite Hd.
  - intros Hnodict. unfold _extract_metadata.
    destruct (r_metadata r) as [[d|b]|] eqn:Hmeta;
      [exfalso; now apply (Hnodict d) | |].
    all: split; [intros t ->; reflexivity|].
    all: intros ->; repeat split.
    all: try (intros ->; reflexivity).
    all: intros -> ->; reflexivity.
  - intros. reflexivity.
  - intros t rest Ht. unfold title_of_heading.
    rewrite search_heading_leading by exact Ht.
    now rewrite search_heading_leading_last by exact Ht.
  - intros s. unfold title_of_heading. now rewrite search_heading_line_starts.
  - intros s Hnone. unfold title_of_heading. rewrite search_heading_line_starts.
    assert (Hall : first_some (heading_at <$> line_starts s) = None).
    { induction (line_starts s) as [|line l IH]; [reflexivity|].
      cbn. rewrite (Hnone line) by apply list_elem_of_here.
      apply IH. intros line' Hin. apply Hnone. now apply list_elem_of_further. }
    now rewrite Hall.
  - repeat split; reflexivity.
Qed.

(** The heading fallback at work on a page that has markdown only. *)
Lemma extract_metadata_first_applicable_witness :
  _extract_metadata
    (page "https://a.test" ("# " +:+ "Welcome" +:+ newline +:+ "Body text.") None)
  = [("title", Some "Welcome")].
Proof.
  pose proof (extract_metadata_first_applicable
                (page "https://a.test"
                      ("# " +:+ "Welcome" +:+ newline +:+ "Body text.") None))
    as [_ [Hfallback [_ [Hheading _]]]].
  destruct (Hfallback ltac:(discriminate)) as [_ Hnotitle].
  destruct (Hnotitle eq_refl) as [_ [Hmarkdown _]].
  rewrite (Hmarkdown eq_refl eq_refl).
  apply (Hheading "Welcome" "Body text."). split; reflexivity.
Defined.

(** C4, refuted as stated: an outcome whose only content is html that
    starts with a heading line.  The specification scans markdown or html
    and finds the title; the code returns an empty mapping. *)
Lemma extract_metadata_never_scans_html :
  _extract_metadata (html_only "# Title") = []
  /\ extractMetadata_spec (html_only "# Title") = [("title", Some "Title")].
Proof. split; reflexivity. Qed.

(** An empty metadata dict is returned as it is, whatever else the
    outcome carries: the title is not consulted although the first
    strategy produced nothing, where the specification's wording would
    have answered with the title. *)
Theorem extract_metadata_empty_dict_stops_fallback (r : CrawlResult) :
  r_metadata r = Some (MetaIsDict []) ->
  _extract_metadata r = []
  /\ (forall t, r_title r = Some t -> extractMetadata_spec r = [("title", t)]).
Proof.
  intros Hmeta. unfold _extract_metadata, extractMetadata_spec. rewrite Hmeta.
  split; [reflexivity|]. intros t ->. reflexivity.
Qed.

(** An empty metadata dict next to the title T. *)
Lemma extract_metadata_empty_dict_stops_fallback_witness :
  _extract_metadata empty_meta_with_title = []
  /\ extractMetadata_spec empty_meta_with_title = [("title", Some "T")].
Proof.
  destruct (extract_metadata_empty_dict_stops_fallback empty_meta_with_title eq_refl)
    as [Hcode Hspec].
  split; [exact Hcode | exact (Hspec (Some "T") eq_refl)].
Defined.

(** ** Link extraction ([_extract_links]) *)

Section FirstSeen.

Implicit Types (l : list string) (x : string).

Lemma elem_of_first_seen x l : x ∈ first_seen l ↔ x ∈ l.
Proof.
  revert x. induction l as [|y l IH]; intros x; simpl; [reflexivity|].
  rewrite !elem_of_cons, list_elem_of_filter, IH.
  destruct (decide (x = y)); tauto.
Qed.

Lemma first_seen_NoDup l : NoDup (first_seen l).
Proof.
  induction l as [|y l IH]; simpl; [constructor|].
  apply NoDup_cons. split.
  - rewrite list_elem_of_filter. intros [Hne _]. now apply Hne.
  - now apply NoDup_filter.
Qed.

Lemma first_seen_sublist l : first_seen l `sublist_of` l.
Proof.
  induction l as [|y l IH]; simpl; [constructor|].
  apply sublist_skip. etransitivity; [apply sublist_filter|exact IH].
Qed.

Lemma first_seen_filter (P : string -> Prop) `{!forall x, Decision (P x)} l :
  first_seen (filter P l) = filter P (first_seen l).
Proof.
  induction l as [|y l IH]; [reflexivity|].
  destruct (decide (P y)) as [Hy|Hy].
  - rewrite filter_cons_True by exact Hy. simpl.
    rewrite filter_cons_True by exact Hy. f_equal.
    rewrite IH, !list_filter_filter. apply list_filter_iff. intros x. tauto.
  - rewrite filter_cons_False by exact Hy. simpl.
    rewrite filter_cons_False by exact Hy.
    rewrite IH, list_filter_filter. apply list_filter_iff.
    intros x. split; [|tauto].
    intros Hx. split; [exact Hx|]. intros ->. contradiction.
Qed.

(** The loop of lines 319-324 keeps, in first-seen order, the links that
    are neither blank nor already in [seen]. *)
Lemma unique_links_from_first_seen (seen : gset string) l :
  unique_links_from seen l
  = first_seen (filter (fun x => (x ∉ seen) /\ Py.strip_truthy x = true) l).
Proof.
  revert seen. induction l as [|y l IH]; intros seen; [reflexivity|].
  simpl unique_links_from.
  destruct (bool_decide (y ∉ seen)) eqn:Hseen; simpl andb.
  - apply bool_decide_eq_true in Hseen.
    destruct (Py.strip_truthy y) eqn:Hblank.
    + rewrite filter_cons_True by (split; assumption). simpl. f_equal.
      rewrite IH, <- first_seen_filter, list_filter_filter.
      f_equal. apply list_filter_iff. intros x.
      rewrite not_elem_of_union, not_elem_of_singleton. tauto.
    + rewrite filter_cons_False by (intros [_ ?]; congruence). apply IH.
  - apply bool_decide_eq_false in Hseen.
    rewrite filter_cons_False by (intros [? _]; contradiction). apply IH.
Qed.

End FirstSeen.

Lemma candidate_links_filtered (r : CrawlResult) :
  structured_links r = [] ->
  Forall (fun link => Py.startswith_link link = true) (candidate_links r).
Proof.
  intros Hnone. unfold candidate_links. rewrite Hnone.
  assert (Hf : forall l : list string,
             Forall (fun link => Py.startswith_link link = true)
                    (filter (fun url => Py.startswith_link url = true) l)).
  { intros l. apply Forall_forall. intros x Hx.
    now apply list_elem_of_filter in Hx as [Hx _]. }
  unfold links_after_html. simpl negb. simpl andb.
  destruct (Py.attr_truthy (r_html_content r)).
  - unfold links_after_markdown.
    destruct (negb _ && Py.attr_truthy (r_markdown_content r)); [apply Hf|].
    destruct (negb _ && Py.attr_truthy (r_markdown r)); apply Hf.
  - destruct (Py.attr_truthy (r_html r)).
    + unfold links_after_markdown.
      destruct (negb _ && Py.attr_truthy (r_markdown_content r)); [apply Hf|].
      destruct (negb _ && Py.attr_truthy (r_markdown r)); apply Hf.
    + unfold links_after_markdown. simpl negb. simpl andb.
      destruct (Py.attr_truthy (r_markdown_content r)); [apply Hf|].
      destruct (Py.attr_truthy (r_markdown r)); [apply Hf|constructor].
Qed.

(** C3, as the code has it: the returned list has no duplicates, keeps
    the candidate links in first-seen order and drops blank ones; when
    the outcome has no structured link list, so that the links come from
    parsing html or markdown, every returned link starts with http://,
    https:// or /; and the anchor example gives exactly its URL. *)
Theorem extract_links_unique_in_first_seen_order (r : CrawlResult) :
  NoDup (_extract_links r)
  /\ _extract_links r
     = first_seen (filter (fun link => Py.strip_truthy link = true) (candidate_links r))
  /\ _extract_links r `sublist_of` candidate_links r
  /\ (forall link, link ∈ _extract_links r <->
                   link ∈ candidate_links r /\ Py.strip_truthy link = true)
  /\ (structured_links r = [] ->
      Forall (fun link => Py.startswith_link link = true) (_extract_links r))
  /\ _extract_links (html_only anchor_html) = ["https://x.com/a"].
Proof.
  assert (Heq : _extract_links r
     = first_seen (filter (fun link => Py.strip_truthy link = true) (candidate_links r))).
  { unfold _extract_links. rewrite unique_links_from_first_seen.
    f_equal. apply list_filter_iff. intros x.
    split; [tauto|]. intros Hx. split; [apply not_elem_of_empty|exact Hx]. }
  assert (Hin : forall link, link ∈ _extract_links r <->
                   link ∈ candidate_links r /\ Py.strip_truthy link = true).
  { intros link. rewrite Heq, elem_of_first_seen, list_elem_of_filter. tauto. }
  split; [rewrite Heq; apply first_seen_NoDup|].
  split; [exact Heq|].
  split; [rewrite Heq; etransitivity; [apply first_seen_sublist|apply sublist_filter]|].
  split; [exact Hin|].
  split.
  - intros Hnone. apply Forall_forall. intros link Hlink.
    apply Hin in Hlink as [Hlink _].
    pose proof (candidate_links_filtered r Hnone) as Hall.
    rewrite Forall_forall in Hall. now apply Hall.
  - unfold _extract_links. rewrite unique_links_from_first_seen. reflexivity.
Qed.

(** The prefix guarantee at work on markdown that links to a mail
    address and to a page. *)
Lemma extract_links_unique_in_first_seen_order_witness :
  Forall (fun link => Py.startswith_link link = true)
         (_extract_links (page "https://a.test"
                               "[mail](mailto:a@b.c) [doc](/doc) [again](/doc)" None)).
Proof.
  apply (extract_links_unique_in_first_seen_order
           (page "https://a.test"
                 "[mail](mailto:a@b.c) [doc](/doc) [again](/doc)" None)).
  reflexivity.
Defined.

(** C3, refuted as stated: a structured link list is taken as it is, so a
    link that starts with none of the three prefixes is returned. *)
Lemma extract_links_keeps_structured_mailto :
  _extract_links (links_only ["mailto:team@example.com"]) = ["mailto:team@example.com"]
  /\ Py.startswith_link "mailto:team@example.com" = false.
Proof.
  split; [|reflexivity].
  unfold _extract_links. rewrite unique_links_from_first_seen. reflexivity.
Qed.

(** ** Batch crawl ([crawl_urls]) *)

Section Batch.

Context {W C : Type} `{Collaborators W C}.

Ltac run_step :=
  unfold bind, try_except, call, call_exn, get_crawler, ret, raise; simpl.

Lemma ensure_initialized_ready (st st2 : State W C) :
  ensure_initialized st = (Returned tt, st2) -> exists c, crawler st2 = Some c.
Proof.
  unfold ensure_initialized, initialize. run_step.
  destruct (crawler st) as [c|] eqn:Hc.
  - intros [= <-]. eauto.
  - destruct (AsyncWebCrawler (world st)) as [[c|msg] w]; [|discriminate].
    intros [= <-]. simpl. eauto.
Qed.

(** The loop body always returns an entry, leaves [self.crawler] alone,
    and the entry reports the outcome of the processing. *)
Lemma crawl_one_url_returns (kwargs : Kwargs) (run_config : CrawlerRunConfig)
    (url : string) (st : State W C) :
  exists e w',
    crawl_one_url kwargs run_config url st
    = (Returned e, {| crawler := crawler st; world := w' |})
    /\ entry_reports url (processing_outcome kwargs run_config url st) e.
Proof.
  unfold crawl_one_url, processing_outcome, fetch_outcome, after_clock, entry_reports.
  unfold of_outcome. run_step.
  destruct (time_time (world st)) as [t0 w1]. simpl.
  destruct (crawler st) as [c|]; simpl.
  - destruct (arun c url run_config w1) as [[result|msg] w2]; simpl.
    + destruct (_extract_content_call result _) as [content|msg]; simpl;
        destruct (time_time w2) as [t1 w3]; simpl; eauto 10.
    + destruct (time_time w2) as [t1 w3]; simpl; eauto 10.
  - destruct (time_time w1) as [t1 w2]. simpl. eauto 10.
Qed.

Lemma state_after_cons (kwargs : Kwargs) (run_config : CrawlerRunConfig)
    (url : string) (pre : list string) (st : State W C) :
  state_after kwargs run_config (url :: pre) st
  = state_after kwargs run_config pre
      (snd (crawl_one_url kwargs run_config url st)).
Proof.
  unfold state_after. simpl. unfold bind, ret.
  destruct (crawl_one_url_returns kwargs run_config url st) as (e & w' & -> & _).
  simpl.
  destruct (for_each (crawl_one_url kwargs run_config) pre _) as [[es|msg] st']; reflexivity.
Qed.

(** The loop never stops early: it returns one entry per URL, and the
    entry at each position reports the processing made at that position. *)
Lemma for_each_crawl_returns (kwargs : Kwargs) (run_config : CrawlerRunConfig)
    (urls : list string) (st : State W C) :
  exists es w',
    for_each (crawl_one_url kwargs run_config) urls st
    = (Returned es, {| crawler := crawler st; world := w' |})
    /\ e_url <$> es = urls
    /\ forall pre url post, urls = pre ++ url :: post ->
         exists e, es !! length pre = Some e
           /\ entry_reports url
                (processing_outcome kwargs run_config url
                   (state_after kwargs run_config pre st)) e.
Proof.
  revert st. induction urls as [|u urls IH]; intros st.
  - exists [], (world st). destruct st. repeat split.
    intros [|? ?] ? ? ?; discriminate.
  - destruct (crawl_one_url_returns kwargs run_config u st) as (e & w1 & He & Hrep).
    destruct (IH {| crawler := crawler st; world := w1 |}) as (es & w2 & Hes & Hmap & Hpos).
    exists (e :: es), w2. simpl. unfold bind, ret. rewrite He, Hes. simpl.
    split; [reflexivity|]. split.
    + f_equal; [apply Hrep | exact Hmap].
    + intros [|p pre] url post Heq; simpl in Heq; injection Heq as -> ->.
      * exists e. split; [reflexivity|]. exact Hrep.
      * rewrite state_after_cons, He. simpl. eapply Hpos. reflexivity.
Qed.

(** Once the crawler is there, [crawl_urls] returns, and its result is
    assembled from the entries of the loop. *)
Lemma crawl_urls_returns (urls : list string) (kwargs : Kwargs) (st st2 : State W C) :
  ensure_initialized (after_clock st) = (Returned tt, st2) ->
  exists res st',
    crawl_urls urls kwargs st = (Returned res, st')
    /\ returned (for_each (crawl_one_url kwargs (_build_run_config kwargs)) urls st2)
       = Some (cu_results res)
    /\ cu_success res = forallb e_success (cu_results res)
    /\ cu_urls_processed res = length urls
    /\ cu_average_time_per_url res
       = if (0 <? length urls)%nat
         then Py.round2 (PrimFloat.div (cu_total_execution_time_seconds res)
                                       (Py.float_of_int (Z.of_nat (length urls))))
         else 0%float.
Proof.
  intros Hinit.
  destruct (ensure_initialized_ready _ _ Hinit) as [c Hc].
  destruct (for_each_crawl_returns kwargs (_build_run_config kwargs) urls st2)
    as (es & w3 & Hes & _).
  unfold crawl_urls. unfold bind at 1. unfold try_except, call at 1. simpl.
  destruct (time_time (world st)) as [t0 w1] eqn:Hclock.
  unfold after_clock in Hinit. rewrite Hclock in Hinit. simpl in Hinit.
  unfold bind at 1. rewrite Hinit.
  unfold bind at 1. unfold get_crawler at 1. rewrite Hc.
  unfold bind. rewrite Hes.
  run_step.
  destruct (time_time w3) as [t1 w4]. simpl.
  destruct (uuid4 w4) as [task_id w5]. simpl.
  eexists _, _. split; [reflexivity|]. simpl.
  repeat split.
Qed.

(** Without a crawler there is no batch: the exception of the
    initialisation is the exception of [crawl_urls]. *)
Lemma crawl_urls_raises_without_crawler (urls : list string) (kwargs : Kwargs)
    (st st2 : State W C) (msg : string) :
  ensure_initialized (after_clock st) = (Raised msg, st2) ->
  exists st', crawl_urls urls kwargs st = (Raised msg, st').
Proof.
  intros Hinit.
  unfold crawl_urls. unfold bind at 1. unfold try_except, call at 1. simpl.
  destruct (time_time (world st)) as [t0 w1] eqn:Hclock.
  unfold after_clock in Hinit. rewrite Hclock in Hinit. simpl in Hinit.
  unfold bind at 1. rewrite Hinit. run_step.
  destruct (time_time (world st2)) as [t1 w2]. simpl. eauto.
Qed.

End Batch.

(** A batch crawl on a machine with no browser raises the constructor's
    error. *)
Lemma crawl_urls_raises_without_crawler_witness :
  exists st',
    crawl_urls (H := offline) ["https://a.test"] no_kwargs fresh
    = (Raised "BrowserType.launch: executable not found", st').
Proof.
  apply (crawl_urls_raises_without_crawler (H := offline)
           ["https://a.test"] no_kwargs fresh {| crawler := None; world := 2 |}).
  reflexivity.
Defined.

(** C6: a batch crawl whose crawler is (or becomes) available returns one
    entry per input URL, in the order of the input, and [urls_processed]
    is the length of the input. *)
Theorem crawl_urls_preserves_input_order {W C : Type} {collab : Collaborators W C}
    (urls : list string) (kwargs : Kwargs) (st st2 : State W C) :
  ensure_initialized (after_clock st) = (Returned tt, st2) ->
  exists res st',
    crawl_urls urls kwargs st = (Returned res, st')
    /\ e_url <$> cu_results res = urls
    /\ length (cu_results res) = length urls
    /\ cu_urls_processed res = length urls.
Proof.
  intros Hinit.
  destruct (crawl_urls_returns urls kwargs st st2 Hinit)
    as (res & st' & Hrun & Hloop & _ & Hcount & _).
  destruct (for_each_crawl_returns kwargs (_build_run_config kwargs) urls st2)
    as (es & w3 & Hes & Hmap & _).
  unfold returned in Hloop. rewrite Hes in Hloop. simpl in Hloop.
  injection Hloop as ->.
  exists res, st'. repeat split; try assumption.
  rewrite <- Hmap at 1. apply eq_sym, length_fmap.
Qed.

(** C6 on a batch of three URLs, the second of which cannot be fetched. *)
Lemma crawl_urls_preserves_input_order_witness :
  exists res st',
    crawl_urls ["https://a.test"; "https://down.test"; "https://soft.test"]
               no_kwargs fresh = (Returned res, st')
    /\ e_url <$> cu_results res
       = ["https://a.test"; "https://down.test"; "https://soft.test"]
    /\ length (cu_results res) = 3
    /\ cu_urls_processed res = 3.
Proof.
  apply (crawl_urls_preserves_input_order
           ["https://a.test"; "https://down.test"; "https://soft.test"]
           no_kwargs fresh {| crawler := Some tt; world := 2 |}).
  reflexivity.
Defined.

(** C7: in a batch crawl, a URL whose processing raises, be it in the
    fetch or, the fetch having returned, in the extraction of the content,
    gets an entry with [success] false, the error text under [error],
    empty content and empty metadata; every URL of the input still gets
    its entry; and the overall [success] is the conjunction of the
    entries' flags. *)
Theorem crawl_urls_isolates_failures {W C : Type} {collab : Collaborators W C}
    (urls : list string) (kwargs : Kwargs) (st st2 : State W C) :
  ensure_initialized (after_clock st) = (Returned tt, st2) ->
  exists res st',
    crawl_urls urls kwargs st = (Returned res, st')
    /\ length (cu_results res) = length urls
    /\ cu_success res = forallb e_success (cu_results res)
    /\ forall pre url post msg,
         urls = pre ++ url :: post ->
         (fetch_outcome (_build_run_config kwargs) url
            (state_after kwargs (_build_run_config kwargs) pre st2) = Raised msg
          \/ exists result,
               fetch_outcome (_build_run_config kwargs) url
                 (state_after kwargs (_build_run_config kwargs) pre st2)
               = Returned result
               /\ _extract_content_call result
                    (kwargs_get (kw_content_type kwargs) (Some ct_markdown))
                  = Raised msg) ->
         exists e,
           cu_results res !! length pre = Some e
           /\ e_url e = url /\ e_success e = false /\ e_error e = Some msg
           /\ e_content e = ContentStr "" /\ e_metadata e = [].
Proof.
  intros Hinit.
  destruct (crawl_urls_returns urls kwargs st st2 Hinit)
    as (res & st' & Hrun & Hloop & Hall & _).
  destruct (for_each_crawl_returns kwargs (_build_run_config kwargs) urls st2)
    as (es & w3 & Hes & Hmap & Hpos).
  unfold returned in Hloop. rewrite Hes in Hloop. simpl in Hloop.
  injection Hloop as ->.
  exists res, st'. split; [exact Hrun|]. split.
  { rewrite <- Hmap at 1. apply eq_sym, length_fmap. }
  split; [exact Hall|].
  intros pre url post msg Hsplit Hraised.
  destruct (Hpos pre url post Hsplit) as (e & He & Hurl & Hrep).
  assert (Hout : processing_outcome kwargs (_build_run_config kwargs) url
                   (state_after kwargs (_build_run_config kwargs) pre st2)
                 = Raised msg).
  { unfold processing_outcome.
    destruct Hraised as [-> | (result & -> & ->)]; reflexivity. }
  rewrite Hout in Hrep. exists e. tauto.
Qed.

(** C7 on a batch whose second URL cannot be fetched: the third URL is
    still processed. *)
Lemma crawl_urls_isolates_failures_witness :
  exists res st',
    crawl_urls ["https://a.test"; "https://down.test"; "https://soft.test"]
               no_kwargs fresh = (Returned res, st')
    /\ length (cu_results res) = 3
    /\ cu_success res = forallb e_success (cu_results res)
    /\ exists e,
         cu_results res !! 1 = Some e
         /\ e_url e = "https://down.test" /\ e_success e = false
         /\ e_error e = Some "net::ERR_CONNECTION_REFUSED"
         /\ e_content e = ContentStr "" /\ e_metadata e = [].
Proof.
  destruct (crawl_urls_isolates_failures (collab := scripted)
              ["https://a.test"; "https://down.test"; "https://soft.test"]
              no_kwargs fresh {| crawler := Some tt; world := 2 |} eq_refl)
    as (res & st' & Hrun & Hlen & Hall & Hfail).
  exists res, st'. repeat (split; [assumption|]).
  apply (Hfail ["https://a.test"] "https://down.test" ["https://soft.test"]
               "net::ERR_CONNECTION_REFUSED"); [reflexivity|]. left. reflexivity.
Defined.

(** C10, as the code has it: an entry of a batch result has an [error]
    key exactly when the processing of its URL raised, in the fetch or in
    the extraction; when neither raised, the entry has no [error] key and
    its [success] flag is the renderer result's own [success] attribute,
    true when the attribute is missing, so that an entry can have
    [success] false and no [error].  A fetch that returns does not
    suffice: when the extraction raises afterwards, as it does whenever
    [content_type] is null, the entry has the [error] key and [success]
    false whatever the renderer reported. *)
Theorem crawl_urls_error_key_iff_raised {W C : Type} {collab : Collaborators W C}
    (urls : list string) (kwargs : Kwargs) (st st2 : State W C) :
  ensure_initialized (after_clock st) = (Returned tt, st2) ->
  exists res st',
    crawl_urls urls kwargs st = (Returned res, st')
    /\ forall pre url post,
         urls = pre ++ url :: post ->
         exists e,
           cu_results res !! length pre = Some e
           /\ (is_Some (e_error e) <->
               exists msg,
                 fetch_outcome (_build_run_config kwargs) url
                   (state_after kwargs (_build_run_config kwargs) pre st2) = Raised msg
                 \/ exists result,
                      fetch_outcome (_build_run_config kwargs) url
                        (state_after kwargs (_build_run_config kwargs) pre st2)
                      = Returned result
                      /\ _extract_content_call result
                           (kwargs_get (kw_content_type kwargs) (Some ct_markdown))
                         = Raised msg)
           /\ (forall result content,
                 fetch_outcome (_build_run_config kwargs) url
                   (state_after kwargs (_build_run_config kwargs) pre st2)
                 = Returned result ->
                 _extract_content_call result
                   (kwargs_get (kw_content_type kwargs) (Some ct_markdown))
                 = Returned content ->
                 e_error e = None
                 /\ e_success e = kwargs_get (r_success result) true
                 /\ e_content e = content)
           /\ (forall result,
                 fetch_outcome (_build_run_config kwargs) url
                   (state_after kwargs (_build_run_config kwargs) pre st2)
                 = Returned result ->
                 kw_content_type kwargs = Some None ->
                 e_error e = Some "attribute name must be string, not 'NoneType'"
                 /\ e_success e = false).
Proof.
  intros Hinit.
  destruct (crawl_urls_returns urls kwargs st st2 Hinit)
    as (res & st' & Hrun & Hloop & _).
  destruct (for_each_crawl_returns kwargs (_build_run_config kwargs) urls st2)
    as (es & w3 & Hes & Hmap & Hpos).
  unfold returned in Hloop. rewrite Hes in Hloop. simpl in Hloop.
  injection Hloop as ->.
  exists res, st'. split; [exact Hrun|].
  intros pre url post Hsplit.
  destruct (Hpos pre url post Hsplit) as (e & He & Hurl & Hrep).
  exists e. split; [exact He|].
  unfold processing_outcome in Hrep.
  destruct (fetch_outcome _ _ _) as [result|msg].
  - destruct (_extract_content_call result _) as [content|msg] eqn:Hcall.
    + destruct Hrep as (Herr & Hok & Hcontent & _). split; [|split].
      * rewrite Herr. split; [intros [? [=]]|].
        intros [msg [[=] | (result' & [= <-] & Hraised)]]. congruence.
      * intros ? ? [= <-] Hreturned. rewrite Hcall in Hreturned.
        injection Hreturned as <-. now repeat split.
      * intros ? [= <-] Hnull. rewrite Hnull in Hcall. discriminate.
    + destruct Hrep as (Herr & Hok & _). split; [|split].
      * rewrite Herr. split; [|eauto]. intros _. exists msg. right. eauto.
      * intros ? ? [= <-] Hreturned. congruence.
      * intros ? [= <-] Hnull. rewrite Hnull in Hcall. cbn in Hcall.
        injection Hcall as <-. now split.
  - destruct Hrep as (Herr & Hok & _). split; [|split].
    + rewrite Herr. split; [|eauto]. intros _. exists msg. now left.
    + intros ? ? [=].
    + intros ? [=].
Qed.

(** C10 on a page the renderer reports as unsuccessful without raising:
    the entry has [success] false and no [error] key. *)
Lemma crawl_urls_error_key_iff_raised_witness :
  exists res st',
    crawl_urls ["https://a.test"; "https://down.test"; "https://soft.test"]
               no_kwargs fresh = (Returned res, st')
    /\ exists e,
         cu_results res !! 2 = Some e
         /\ e_error e = None /\ e_success e = false.
Proof.
  destruct (crawl_urls_error_key_iff_raised (collab := scripted)
              ["https://a.test"; "https://down.test"; "https://soft.test"]
              no_kwargs fresh {| crawler := Some tt; world := 2 |} eq_refl)
    as (res & st' & Hrun & Hpos).
  exists res, st'. split; [exact Hrun|].
  destruct (Hpos ["https://a.test"; "https://down.test"] "https://soft.test" []
                 eq_refl) as (e & He & _ & Hreturned & _).
  exists e. split; [exact He|].
  destruct (Hreturned (page "https://soft.test" "" (Some false)) (ContentStr "")
                      eq_refl eq_refl) as (Herr & Hok & _).
  now split.
Defined.

(** C10, refuted as stated: a request whose [content_type] is null.  The
    fetch of the page returns and the renderer does not report a failure
    (its result has no [success] attribute, which counts as true), yet
    the entry has [success] false: the flag is not copied, because the
    extraction raised. *)
Lemma crawl_urls_fetched_page_fails_on_null_content_type :
  exists res,
    returned (crawl_urls ["https://a.test"] null_content_type_kwargs fresh) = Some res
    /\ fetch_outcome (_build_run_config null_content_type_kwargs) "https://a.test"
         {| crawler := Some tt; world := 2 |}
       = Returned (page "https://a.test" "# Welcome" None)
    /\ kwargs_get (r_success (page "https://a.test" "# Welcome" None)) true = true
    /\ cu_success res = false
    /\ exists t,
         cu_results res
         = [ {| e_url := "https://a.test"; e_metadata := []; e_content := ContentStr "";
                e_success := false; e_execution_time_seconds := t;
                e_error := Some "attribute name must be string, not 'NoneType'" |} ].
Proof. eexists. split; [reflexivity|]. repeat split. eexists. reflexivity. Qed.

(** ** Timing statistics *)

(** C8, as the code has it: [average_time_per_url] is the quotient of
    [total_execution_time_seconds] by [urls_processed], computed in
    floating point and rounded to two decimals by [round], when
    [urls_processed] is positive; it is 0, with no division, when
    [urls_processed] is 0.  The rounding is that of the built-in on the
    double the division gave: half of 0.05, of 0.15 and of 0.25 seconds
    for two URLs are reported as 0.03, 0.07 and 0.12. *)
Theorem crawl_urls_average_is_rounded_quotient {W C : Type} {collab : Collaborators W C}
    (urls : list string) (kwargs : Kwargs) (st st2 : State W C) :
  ensure_initialized (after_clock st) = (Returned tt, st2) ->
  exists res st',
    crawl_urls urls kwargs st = (Returned res, st')
    /\ (cu_urls_processed res = 0%nat -> cu_average_time_per_url res = 0%float)
    /\ ((0 < cu_urls_processed res)%nat ->
        cu_average_time_per_url res
        = Py.round2 (PrimFloat.div (cu_total_execution_time_seconds res)
                                   (Py.float_of_int (Z.of_nat (cu_urls_processed res)))))
    /\ Py.round2 (PrimFloat.div (Py.decimal 5 100) (Py.float_of_int 2)) = Py.decimal 3 100
    /\ Py.round2 (PrimFloat.div (Py.decimal 15 100) (Py.float_of_int 2)) = Py.decimal 7 100
    /\ Py.round2 (PrimFloat.div (Py.decimal 25 100) (Py.float_of_int 2)) = Py.decimal 12 100.
Proof.
  intros Hinit.
  destruct (crawl_urls_returns urls kwargs st st2 Hinit)
    as (res & st' & Hrun & _ & _ & Hcount & Havg).
  exists res, st'. split; [exact Hrun|]. rewrite Hcount, Havg.
  split; [|split; [|repeat split; vm_compute; reflexivity]].
  - intros ->. reflexivity.
  - intros Hpos. apply Nat.ltb_lt in Hpos. now rewrite Hpos.
Qed.

(** C8 on a batch of three URLs that takes eleven seconds. *)
Lemma crawl_urls_average_is_rounded_quotient_witness :
  exists res st',
    crawl_urls ["https://a.test"; "https://down.test"; "https://soft.test"]
               no_kwargs fresh = (Returned res, st')
    /\ (cu_urls_processed res = 0%nat -> cu_average_time_per_url res = 0%float)
    /\ ((0 < cu_urls_processed res)%nat ->
        cu_average_time_per_url res
        = Py.round2 (PrimFloat.div (cu_total_execution_time_seconds res)
                                   (Py.float_of_int (Z.of_nat (cu_urls_processed res))))).
Proof.
  destruct (crawl_urls_average_is_rounded_quotient (collab := scripted)
              ["https://a.test"; "https://down.test"; "https://soft.test"]
              no_kwargs fresh {| crawler := Some tt; world := 2 |} eq_refl)
    as (res & st' & Hrun & Hzero & Hpos & _).
  exists res, st'. split; [exact Hrun|]. split; [exact Hzero | exact Hpos].
Defined.

(** C8, refuted as stated: three URLs crawled in eleven seconds have an
    average of 3.67, which is not what eleven divided by three gives. *)
Lemma crawl_urls_average_is_not_the_quotient :
  exists res,
    returned (crawl_urls ["https://a.test"; "https://down.test"; "https://soft.test"]
                         no_kwargs fresh) = Some res
    /\ cu_urls_processed res = 3%nat
    /\ cu_total_execution_time_seconds res = Py.float_of_int 11
    /\ cu_average_time_per_url res = Py.decimal 367 100
    /\ PrimFloat.eqb (cu_average_time_per_url res)
                     (PrimFloat.div (cu_total_execution_time_seconds res)
                                    (Py.float_of_int (Z.of_nat (cu_urls_processed res))))
       = false.
Proof. eexists. split; [reflexivity|]. repeat split; vm_compute; reflexivity. Qed.

(** ** Deep crawl ([crawl_sub_urls]) *)

Lemma collect_result_urls (results : list CrawlResult)
    (acc : gset string * MetaValue) (u : string) :
  u ∈ fst (foldl collect_result acc results)
  <-> u ∈ fst acc \/ exists r, r ∈ results /\ r_url r = Some u.
Proof.
  revert acc. induction results as [|r results IH]; intros [all_urls metadata].
  - simpl. split; [tauto|]. intros [Hin|(r & Hr & _)]; [exact Hin|].
    now apply elem_of_nil in Hr.
  - simpl foldl. rewrite IH. unfold collect_result. simpl.
    setoid_rewrite elem_of_cons. destruct (r_url r) as [v|] eqn:Hv.
    + rewrite elem_of_union, elem_of_singleton. split.
      * intros [[->|Hin]|(r' & Hr' & Hu)]; eauto 6.
      * intros [Hin|(r' & [->|Hr'] & Hu)]; eauto 6.
        left. left. congruence.
    + split.
      * intros [Hin|(r' & Hr' & Hu)]; eauto 6.
      * intros [Hin|(r' & [->|Hr'] & Hu)]; eauto 6. congruence.
Qed.

(** Once the crawler is there and the library's traversal returns, so
    does [crawl_sub_urls]; its [sub_urls] are the elements of the set of
    result URLs other than the seed. *)
Lemma crawl_sub_urls_returns {W C : Type} {collab : Collaborators W C}
    (url : string) (kwargs : Kwargs) (st st2 : State W C)
    (c : C) (results : list CrawlResult) (w3 : W) :
  ensure_initialized (after_clock st) = (Returned tt, st2) ->
  crawler st2 = Some c ->
  arun_deep c url (deep_crawl_config kwargs) (world st2) = (Returned results, w3) ->
  exists res st',
    crawl_sub_urls url kwargs st = (Returned res, st')
    /\ cs_sub_urls res
       = filter (fun found_url => found_url <> url)
                (elements (fst (foldl collect_result (∅, MetaIsDict []) results)))
    /\ cs_urls_found res = length (cs_sub_urls res).
Proof.
  intros Hinit Hc Hrun.
  unfold crawl_sub_urls. unfold bind at 1. unfold try_except, call at 1. simpl.
  destruct (time_time (world st)) as [t0 w1] eqn:Hclock.
  unfold after_clock in Hinit. rewrite Hclock in Hinit. simpl in Hinit.
  unfold bind at 1. rewrite Hinit.
  unfold bind at 1. unfold get_crawler at 1. rewrite Hc.
  unfold bind at 1. unfold call_exn at 1.
  unfold deep_crawl_config in Hrun.
  assert (Hcfg : forall cfg, cfg = deep_crawl_config kwargs ->
                 arun_deep c url cfg (world st2) = (Returned results, w3)).
  { intros cfg ->. exact Hrun. }
  match goal with
  | |- context [arun_deep c url ?cfg (world st2)] =>
      rewrite (Hcfg cfg)
  end.
  2:{ unfold deep_crawl_config.
      destruct (String.eqb _ "dfs"); [reflexivity|].
      destruct (String.eqb _ "best_first"); reflexivity. }
  destruct (foldl collect_result (∅, MetaIsDict []) results) as [all_urls metadata].
  unfold bind, call, ret. simpl.
  destruct (time_time w3) as [t1 w4]. simpl.
  destruct (uuid4 w4) as [task_id w5]. simpl.
  eexists _, _. split; [reflexivity|]. simpl. split; reflexivity.
Qed.

(** C9: a deep crawl whose crawler is available and whose traversal
    returns gives a [sub_urls] list without repetition and without the
    seed URL, and [urls_found] is its length.  The list holds exactly the
    URLs of the traversal's results other than the seed. *)
Theorem crawl_sub_urls_deduplicates {W C : Type} {collab : Collaborators W C}
    (url : string) (kwargs : Kwargs) (st st2 : State W C)
    (c : C) (results : list CrawlResult) (w3 : W) :
  ensure_initialized (after_clock st) = (Returned tt, st2) ->
  crawler st2 = Some c ->
  arun_deep c url (deep_crawl_config kwargs) (world st2) = (Returned results, w3) ->
  exists res st',
    crawl_sub_urls url kwargs st = (Returned res, st')
    /\ NoDup (cs_sub_urls res)
    /\ (url ∉ cs_sub_urls res)
    /\ cs_urls_found res = length (cs_sub_urls res)
    /\ (forall u, u ∈ cs_sub_urls res <->
                  u <> url /\ exists r, r ∈ results /\ r_url r = Some u).
Proof.
  intros Hinit Hc Hrun.
  destruct (crawl_sub_urls_returns url kwargs st st2 c results w3 Hinit Hc Hrun)
    as (res & st' & Hres & Hsub & Hfound).
  exists res, st'. split; [exact Hres|]. rewrite Hsub in *.
  split; [apply NoDup_filter, NoDup_elements|].
  split; [rewrite list_elem_of_filter; tauto|].
  split; [exact Hfound|].
  intros u. rewrite list_elem_of_filter, elem_of_elements, collect_result_urls.
  simpl. rewrite elem_of_empty. tauto.
Qed.

(** C9 on a traversal that yields the seed page and one more page. *)
Lemma crawl_sub_urls_deduplicates_witness :
  exists res st',
    crawl_sub_urls "https://example.com" no_kwargs fresh = (Returned res, st')
    /\ NoDup (cs_sub_urls res)
    /\ ("https://example.com" ∉ cs_sub_urls res)
    /\ cs_urls_found res = length (cs_sub_urls res)
    /\ (forall u, u ∈ cs_sub_urls res <->
          u <> "https://example.com"
          /\ exists r,
               r ∈ [ page "https://example.com" "# Home" None;
                     page "https://example.com/login" "# Sign in" None ]
               /\ r_url r = Some u).
Proof.
  apply (crawl_sub_urls_deduplicates (collab := scripted)
           "https://example.com" no_kwargs fresh
           {| crawler := Some tt; world := 2 |} tt
           [ page "https://example.com" "# Home" None;
             page "https://example.com/login" "# Sign in" None ] 3);
    reflexivity.
Defined.

(** The exclusion patterns never reach the crawling library: the
    strategy object carries no filter chain, and [crawl_sub_urls] behaves
    the same whatever [exclude_patterns] holds. *)
Lemma crawl_sub_urls_ignores_exclude_patterns {W C : Type} {collab : Collaborators W C}
    (url : string) (kwargs : Kwargs) (pats : option (list string)) (st : State W C) :
  filter_chain (deep_crawl_strategy (deep_crawl_config kwargs)) = None
  /\ crawl_sub_urls url (with_exclude_patterns kwargs pats) st
     = crawl_sub_urls url kwargs st.
Proof. split; reflexivity. Qed.

(** C1 at the input of the specification's example: seed
    https://example.com, an empty [exclude_patterns] list, and a
    traversal that yields the seed page and its login page.  The filter
    the service builds holds the pattern for login pages, the link
    contains the word login, and the link is in [sub_urls] all the same. *)
Theorem crawl_sub_urls_returns_login_page :
  (exists url_filter,
     _build_url_filter (Some []) = [url_filter]
     /\ ".*login.*" ∈ patterns url_filter)
  /\ String.index 0 "login" "https://example.com/login" = Some 20%nat
  /\ cs_sub_urls <$>
       returned (crawl_sub_urls "https://example.com"
                   (with_exclude_patterns no_kwargs (Some [])) fresh)
     = Some ["https://example.com/login"]
  /\ cs_urls_found <$>
       returned (crawl_sub_urls "https://example.com"
                   (with_exclude_patterns no_kwargs (Some [])) fresh)
     = Some 1%nat.
Proof.
  split.
  - eexists. split; [reflexivity|]. simpl. apply list_elem_of_here.
  - repeat split; vm_compute; reflexivity.
Qed.

(** ** File names ([sanitize_filename]) *)

Lemma replace_invalid_chars_length (s : string) :
  String.length (replace_invalid_chars s) = String.length s.
Proof. induction s as [|c s IH]; simpl; congruence. Qed.

Lemma replace_invalid_chars_safe (s : string) :
  safe_filename (replace_invalid_chars s) = true.
Proof.
  induction s as [|c s IH]; [reflexivity|].
  unfold safe_filename in *. simpl. rewrite IH, andb_true_r.
  destruct (is_invalid_filename_char c) eqn:Hc; [reflexivity|].
  now rewrite Hc.
Qed.

Lemma replace_invalid_chars_id (s : string) :
  safe_filename s = true -> replace_invalid_chars s = s.
Proof.
  unfold safe_filename. induction s as [|c s IH]; simpl; [reflexivity|].
  intros [Hc Hs]%andb_true_iff. apply negb_true_iff in Hc.
  rewrite Hc. f_equal. now apply IH.
Qed.

Lemma slice_to_length (n : nat) (s : string) :
  String.length (slice_to n s) = Nat.min n (String.length s).
Proof.
  revert s. induction n as [|n IH]; intros [|c s]; simpl; try reflexivity.
  now rewrite IH.
Qed.

Lemma slice_to_safe (n : nat) (s : string) :
  safe_filename s = true -> safe_filename (slice_to n s) = true.
Proof.
  unfold safe_filename. revert s.
  induction n as [|n IH]; intros [|c s]; simpl; try reflexivity.
  intros [Hc Hs]%andb_true_iff. rewrite Hc. simpl. now apply IH.
Qed.

(** X5: the sanitised name has at most 255 characters (exactly as many
    as the input when that has at most 255) and none of the characters
    the pattern lists. *)
Theorem sanitize_filename_safe_and_bounded (filename : string) :
  String.length (sanitize_filename filename)
  = Nat.min (String.length filename) 255
  /\ safe_filename (sanitize_filename filename) = true.
Proof.
  unfold sanitize_filename.
  pose proof (replace_invalid_chars_length filename) as Hlen.
  pose proof (replace_invalid_chars_safe filename) as Hsafe.
  destruct (255 <? String.length (replace_invalid_chars filename))%nat eqn:Hlong.
  - apply Nat.ltb_lt in Hlong. split.
    + rewrite slice_to_length. lia.
    + now apply slice_to_safe.
  - apply Nat.ltb_ge in Hlong. split; [lia | exact Hsafe].
Qed.

(** X6: sanitising twice is sanitising once. *)
Theorem sanitize_filename_idempotent (filename : string) :
  sanitize_filename (sanitize_filename filename) = sanitize_filename filename.
Proof.
  destruct (sanitize_filename_safe_and_bounded filename) as [Hlen Hsafe].
  unfold sanitize_filename at 1.
  rewrite (replace_invalid_chars_id _ Hsafe).
  replace (255 <? String.length (sanitize_filename filename))%nat with false;
    [reflexivity|].
  symmetry. apply Nat.ltb_ge. lia.
Qed.

(** X7: the names [sanitize_filename] leaves alone are exactly the safe
    names of at most 255 characters. *)
Theorem sanitize_filename_fixed_points (filename : string) :
  sanitize_filename filename = filename
  <-> safe_filename filename = true /\ (String.length filename <= 255)%nat.
Proof.
  split.
  - intros Hfix.
    destruct (sanitize_filename_safe_and_bounded filename) as [Hlen Hsafe].
    rewrite Hfix in Hlen, Hsafe. split; [exact Hsafe | lia].
  - intros [Hsafe Hlen]. unfold sanitize_filename.
    rewrite (replace_invalid_chars_id _ Hsafe).
    replace (255 <? String.length filename)%nat with false; [reflexivity|].
    symmetry. apply Nat.ltb_ge. lia.
Qed.

(** ** Retrying ([retry_with_backoff]) *)

Section Retry.

Context {A : Type}.
Variables (sleep : float -> outcome unit) (max_retries : Z) (base_delay : float).

Let delay_of (attempt : nat) : float :=
  PrimFloat.mul base_delay (Py.float_of_int (2 ^ Z.of_nat attempt)).

(** A delay that is computed and slept is the product of line 82. *)
Lemma backoff_delay_slept (attempt : nat) :
  (exists delay, backoff_delay base_delay attempt = Returned delay
                 /\ sleep delay = Returned tt) ->
  backoff_delay base_delay attempt = Returned (delay_of attempt)
  /\ sleep (delay_of attempt) = Returned tt.
Proof.
  unfold backoff_delay, delay_of. intros (delay & Hdelay & Hsleep).
  destruct (Py.int_fits_float _); [|discriminate].
  injection Hdelay as <-. now split.
Qed.

Lemma retry_rounds_succeeds (func : nat -> outcome A) (a : A) (d : nat) :
  forall remaining attempt,
    (Z.of_nat (attempt + d) < max_retries)%Z ->
    (d < remaining)%nat ->
    (forall i, (attempt <= i < attempt + d)%nat -> exists e, func i = Raised e) ->
    (forall i, (attempt <= i < attempt + d)%nat ->
       exists delay, backoff_delay base_delay i = Returned delay
                     /\ sleep delay = Returned tt) ->
    func (attempt + d)%nat = Returned a ->
    retry_rounds sleep func max_retries base_delay remaining attempt
    = (Returned (Some a), delay_of <$> seq attempt d).
Proof.
  induction d as [|d IH]; intros remaining attempt Hlt Hrem Hfail Hsleep Hok;
    (destruct remaining as [|remaining]; [lia|]); simpl.
  - rewrite Nat.add_0_r in Hok. now rewrite Hok.
  - destruct (Hfail attempt ltac:(lia)) as [e He]. rewrite He.
    replace (Z.of_nat attempt =? max_retries - 1)%Z with false
      by (symmetry; apply Z.eqb_neq; lia).
    destruct (backoff_delay_slept attempt (Hsleep attempt ltac:(lia))) as [-> ->].
    rewrite (IH remaining (S attempt)); [reflexivity | lia | lia | | |].
    + intros i Hi. apply Hfail. lia.
    + intros i Hi. apply Hsleep. lia.
    + now replace (S attempt + d)%nat with (attempt + S d)%nat by lia.
Qed.

Lemma retry_rounds_exhausted (func : nat -> outcome A) (e : string) (remaining : nat) :
  forall attempt,
    (1 <= remaining)%nat ->
    Z.of_nat (attempt + remaining) = max_retries ->
    (forall i, (attempt <= i < attempt + remaining)%nat -> exists e', func i = Raised e') ->
    (forall i, (attempt <= i < attempt + remaining - 1)%nat ->
       exists delay, backoff_delay base_delay i = Returned delay
                     /\ sleep delay = Returned tt) ->
    func (attempt + remaining - 1)%nat = Raised e ->
    retry_rounds sleep func max_retries base_delay remaining attempt
    = (Raised e, delay_of <$> seq attempt (remaining - 1)).
Proof.
  induction remaining as [|remaining IH]; intros attempt Hpos Hend Hfail Hsleep Hlast; [lia|].
  simpl. destruct (Hfail attempt ltac:(lia)) as [e' He']. rewrite He'.
  destruct remaining as [|remaining].
  - replace (attempt + 1 - 1)%nat with attempt in Hlast by lia.
    replace (Z.of_nat attempt =? max_retries - 1)%Z with true
      by (symmetry; apply Z.eqb_eq; lia).
    simpl. congruence.
  - replace (Z.of_nat attempt =? max_retries - 1)%Z with false
      by (symmetry; apply Z.eqb_neq; lia).
    destruct (backoff_delay_slept attempt (Hsleep attempt ltac:(lia))) as [-> ->].
    rewrite (IH (S attempt)); [ | lia | lia | | | ].
    + simpl. now rewrite Nat.sub_0_r.
    + intros i Hi. apply Hfail. lia.
    + intros i Hi. apply Hsleep. lia.
    + now replace (S attempt + S remaining - 1)%nat
        with (attempt + S (S remaining) - 1)%nat by lia.
Qed.

Lemma retry_rounds_reads_its_rounds (f g : nat -> outcome A) (remaining : nat) :
  forall attempt,
    (forall i, (attempt <= i < attempt + remaining)%nat -> f i = g i) ->
    retry_rounds sleep f max_retries base_delay remaining attempt
    = retry_rounds sleep g max_retries base_delay remaining attempt.
Proof.
  induction remaining as [|remaining IH]; intros attempt Hsame; [reflexivity|].
  simpl. rewrite <- (Hsame attempt) by lia.
  destruct (f attempt) as [a|e]; [reflexivity|].
  destruct (Z.of_nat attempt =? max_retries - 1)%Z; [reflexivity|].
  destruct (backoff_delay base_delay attempt) as [delay|overflow]; [|reflexivity].
  destruct (sleep delay); [|reflexivity].
  rewrite (IH (S attempt)); [reflexivity|]. intros i Hi. apply Hsame. lia.
Qed.

End Retry.

(** X8: with [max_retries] zero or negative the wrapper returns [None]
    at once: the wrapped function is not called and nothing is slept. *)
Theorem sync_retry_without_rounds {A : Type} (sleep : float -> outcome unit)
    (func : nat -> outcome A) (max_retries : Z) (base_delay : float) :
  (max_retries <= 0)%Z ->
  sync_retry sleep func max_retries base_delay = (Returned None, []).
Proof.
  intros Hn. unfold sync_retry.
  now replace (Z.to_nat max_retries) with 0%nat by lia.
Qed.

(** With no round to run, a function that would succeed is not called. *)
Lemma sync_retry_without_rounds_witness :
  sync_retry strict_sleep (fun _ => Returned 7%nat) 0 1%float = (Returned None, []).
Proof. apply sync_retry_without_rounds. lia. Defined.

(** X9: when the first [k] calls raise and call [k], still within
    [max_retries], returns [a], and the delay after each failed call is
    computed and accepted by [sleep], the wrapper returns [a] after
    sleeping [base_delay * 2 ** i] after each failed call [i]. *)
Theorem sync_retry_returns_first_success {A : Type} (sleep : float -> outcome unit)
    (func : nat -> outcome A) (max_retries : Z) (base_delay : float) (k : nat) (a : A) :
  (Z.of_nat k < max_retries)%Z ->
  (forall i, (i < k)%nat -> exists e, func i = Raised e) ->
  (forall i, (i < k)%nat ->
     exists delay, backoff_delay base_delay i = Returned delay
                   /\ sleep delay = Returned tt) ->
  func k = Returned a ->
  sync_retry sleep func max_retries base_delay
  = (Returned (Some a), backoff_delays base_delay k).
Proof.
  intros Hk Hfail Hsleep Hok.
  unfold sync_retry, backoff_delays.
  apply (retry_rounds_succeeds sleep max_retries base_delay func a k);
    [lia | lia | | | exact Hok].
  - intros i Hi. apply Hfail. lia.
  - intros i Hi. apply Hsleep. lia.
Qed.

(** Two failures, then a value, with three rounds allowed and half a
    second as the base delay. *)
Lemma sync_retry_returns_first_success_witness :
  sync_retry strict_sleep
             (fun i => if (i <? 2)%nat then Raised "busy" else Returned i) 3 0.5%float
  = (Returned (Some 2%nat), [0.5%float; 1%float]).
Proof.
  apply (sync_retry_returns_first_success strict_sleep
           (fun i => if (i <? 2)%nat then Raised "busy" else Returned i) 3 0.5%float 2 2%nat).
  - lia.
  - intros i Hi. exists "busy". now replace (i <? 2)%nat with true
      by (symmetry; apply Nat.ltb_lt; exact Hi).
  - intros [|[|i]] Hi; [eexists; split; vm_compute; reflexivity ..| lia].
  - reflexivity.
Defined.

(** X10: when all [max_retries] calls raise, and the delay after each
    call but the last is computed and accepted by [sleep], the wrapper
    raises the error of the last call; it has slept after every call but
    the last. *)
Theorem sync_retry_raises_last_error {A : Type} (sleep : float -> outcome unit)
    (func : nat -> outcome A) (max_retries : Z) (base_delay : float) (e : string) :
  (1 <= max_retries)%Z ->
  (forall i, (Z.of_nat i < max_retries)%Z -> exists e', func i = Raised e') ->
  (forall i, (Z.of_nat i < max_retries - 1)%Z ->
     exists delay, backoff_delay base_delay i = Returned delay
                   /\ sleep delay = Returned tt) ->
  func (Z.to_nat max_retries - 1)%nat = Raised e ->
  sync_retry sleep func max_retries base_delay
  = (Raised e, backoff_delays base_delay (Z.to_nat max_retries - 1)).
Proof.
  intros Hn Hfail Hsleep Hlast. unfold sync_retry, backoff_delays.
  apply (retry_rounds_exhausted sleep max_retries base_delay func e
           (Z.to_nat max_retries) 0%nat).
  - lia.
  - simpl. lia.
  - intros i Hi. apply Hfail. lia.
  - intros i Hi. apply Hsleep. lia.
  - exact Hlast.
Qed.

(** Three rounds that all fail, each with its own error. *)
Lemma sync_retry_raises_last_error_witness :
  sync_retry (A := nat) strict_sleep
    (fun i => if (i <? 2)%nat then Raised "busy" else Raised "gone") 3 1%float
  = (Raised "gone", [1%float; 2%float]).
Proof.
  apply (sync_retry_raises_last_error (A := nat) strict_sleep
           (fun i => if (i <? 2)%nat then Raised "busy" else Raised "gone") 3 1%float "gone").
  - lia.
  - intros i _. destruct (i <? 2)%nat; eauto.
  - intros [|[|i]] Hi; [eexists; split; vm_compute; reflexivity ..| lia].
  - reflexivity.
Defined.

(** X11: the wrapper makes at most [max_retries] calls: what the wrapped
    function would do in a later round has no influence. *)
Theorem sync_retry_bounded_calls {A : Type} (sleep : float -> outcome unit)
    (f g : nat -> outcome A) (max_retries : Z) (base_delay : float) :
  (forall i, (Z.of_nat i < max_retries)%Z -> f i = g i) ->
  sync_retry sleep f max_retries base_delay = sync_retry sleep g max_retries base_delay.
Proof.
  intros Hsame. unfold sync_retry.
  apply retry_rounds_reads_its_rounds. intros i Hi. apply Hsame. lia.
Qed.

(** Two functions that differ from the third call on, with two rounds. *)
Lemma sync_retry_bounded_calls_witness :
  sync_retry strict_sleep
             (fun i => if (i <? 2)%nat then Raised "busy" else Returned 1%nat) 2 1%float
  = sync_retry strict_sleep (fun _ => Raised "busy") 2 1%float.
Proof.
  apply sync_retry_bounded_calls. intros i Hi.
  now replace (i <? 2)%nat with true by (symmetry; apply Nat.ltb_lt; lia).
Defined.

(** An exception of [time.sleep] ends the retrying: when the first call
    fails, more rounds are allowed, and [sleep] refuses the delay, the
    wrapper raises the error of [sleep], not that of the wrapped
    function, which is not called again. *)
Theorem sync_retry_sleep_error_ends_retrying {A : Type} (sleep : float -> outcome unit)
    (func : nat -> outcome A) (max_retries : Z) (base_delay delay : float)
    (e refused : string) :
  (2 <= max_retries)%Z ->
  func 0%nat = Raised e ->
  backoff_delay base_delay 0 = Returned delay ->
  sleep delay = Raised refused ->
  sync_retry sleep func max_retries base_delay = (Raised refused, [delay]).
Proof.
  intros Hn Hfail Hdelay Hsleep. unfold sync_retry.
  destruct (Z.to_nat max_retries) as [|remaining] eqn:Hrem; [lia|].
  cbn [retry_rounds]. rewrite Hfail.
  replace (Z.of_nat 0 =? max_retries - 1)%Z with false
    by (symmetry; apply Z.eqb_neq; lia).
  now rewrite Hdelay, Hsleep.
Qed.

(** A negative base delay: the wrapped function would succeed on its
    second call, but the wrapper raises what [time.sleep] says. *)
Lemma sync_retry_sleep_error_ends_retrying_witness :
  sync_retry strict_sleep
             (fun i => if (i <? 1)%nat then Raised "busy" else Returned i) 3 (-1)%float
  = (Raised "sleep length must be non-negative", [(-1)%float]).
Proof.
  apply (sync_retry_sleep_error_ends_retrying strict_sleep
           (fun i => if (i <? 1)%nat then Raised "busy" else Returned i) 3
           (-1)%float (-1)%float "busy" "sleep length must be non-negative").
  - lia.
  - reflexivity.
  - vm_compute. reflexivity.
  - vm_compute. reflexivity.
Defined.

(** ** Domains ([extract_domain], [is_same_domain], [validate_url]) *)

(** X12: a URL that [validate_url] accepts has a non-empty domain and is
    never in the same domain as a URL with no domain; a URL the parser
    rejects has the empty domain and is not valid; and two URLs with no
    domain, for instance two the parser rejects, count as the same
    domain. *)
Theorem same_domain_of_invalid_urls {lib : UrlLib} (url1 url2 : string) :
  (validate_url url1 = true -> extract_domain url1 <> "")
  /\ (validate_url url1 = true -> extract_domain url2 = "" ->
      is_same_domain url1 url2 = false)
  /\ ((exists e, urlparse url1 = Raised e) ->
      extract_domain url1 = "" /\ validate_url url1 = false)
  /\ (extract_domain url1 = "" -> extract_domain url2 = "" ->
      is_same_domain url1 url2 = true).
Proof.
  assert (Hvalid : validate_url url1 = true -> extract_domain url1 <> "").
  { unfold validate_url, extract_domain.
    destruct (urlparse url1) as [result|e]; [|discriminate].
    intros [_ Hnet]%andb_true_iff. now destruct (netloc result). }
  split; [exact Hvalid|]. split; [|split].
  - intros Hok Hnone. unfold is_same_domain. rewrite Hnone.
    apply String.eqb_neq. now apply Hvalid.
  - intros [e He]. unfold extract_domain, validate_url. now rewrite He.
  - intros H1 H2. unfold is_same_domain. rewrite H1, H2. reflexivity.
Qed.

(** A page URL is valid and is not in the domain of a text without
    scheme and host. *)
Lemma same_domain_of_invalid_urls_witness :
  is_same_domain (lib := scripted_urllib)
    "https://example.com/docs/guide#intro" "no scheme no host" = false.
Proof.
  apply (same_domain_of_invalid_urls (lib := scripted_urllib)
           "https://example.com/docs/guide#intro" "no scheme no host");
    reflexivity.
Defined.

(** ** Run configuration *)

(** X13: in every run configuration the service builds, all images and
    external images are excluded together or not at all, text-only and
    pretty-printed html are never both on, the event waited for is one of
    the two the code names, and external links are excluded exactly when
    link extraction is off. *)
Theorem build_run_config_is_consistent {W C : Type} {collab : Collaborators W C}
    (kwargs : Kwargs) :
  exclude_all_images (_build_run_config kwargs)
  = exclude_external_images (_build_run_config kwargs)
  /\ only_text (_build_run_config kwargs) && prettiify (_build_run_config kwargs) = false
  /\ (wait_until (_build_run_config kwargs) = "domcontentloaded"
      \/ wait_until (_build_run_config kwargs) = "load")
  /\ exclude_external_links (_build_run_config kwargs)
     = negb (kwargs_get (kw_extract_links kwargs) (Config.extract_links settings)).
Proof.
  unfold _build_run_config. simpl. repeat split.
  - destruct (String.eqb _ "text") eqn:Htext; [|reflexivity].
    apply String.eqb_eq in Htext. now rewrite Htext.
  - destruct (kwargs_get (kw_wait_for_js kwargs) _); [now left | now right].
Qed.

(** ** More on the deep crawl: what the response reports *)

Section DeepCrawlResponse.

Context {W C : Type} {collab : Collaborators W C}.

Lemma collect_result_keeps_truthy (results : list CrawlResult)
    (all_urls : gset string) (m : MetaValue) :
  meta_truthy m = true ->
  snd (foldl collect_result (all_urls, m) results) = m.
Proof.
  revert all_urls. induction results as [|r results IH]; intros all_urls Hm;
    [reflexivity|].
  simpl. rewrite Hm. simpl. now apply IH.
Qed.

Lemma collect_result_stays_falsy (results : list CrawlResult)
    (all_urls : gset string) (m : MetaValue) :
  Forall offers_nothing results ->
  meta_truthy m = false ->
  meta_truthy (snd (foldl collect_result (all_urls, m) results)) = false.
Proof.
  revert all_urls m. induction results as [|r results IH];
    intros all_urls m Hnone Hm; [exact Hm|].
  inversion Hnone as [|? ? Hr Hrest]; subst.
  simpl. rewrite Hm. simpl.
  apply IH; [exact Hrest|].
  unfold offers_nothing, offered_metadata in Hr.
  destruct (r_metadata r) as [m'|]; [exact Hr|].
  destruct (r_title r); [discriminate Hr | exact Hm].
Qed.

Lemma collect_result_takes_offer (r : CrawlResult)
    (all_urls : gset string) (m m' : MetaValue) :
  meta_truthy m = false ->
  offered_metadata r = Some m' ->
  snd (collect_result (all_urls, m) r) = m'.
Proof.
  intros Hm Hoffer. unfold collect_result, offered_metadata in *.
  rewrite Hm. simpl.
  destruct (r_metadata r); [congruence|].
  destruct (r_title r); congruence.
Qed.

(** Once the crawler is there and the traversal returns, every field of
    the response is determined. *)
Lemma crawl_sub_urls_response (url : string) (kwargs : Kwargs) (st st2 : State W C)
    (c : C) (results : list CrawlResult) (w3 : W) :
  ensure_initialized (after_clock st) = (Returned tt, st2) ->
  crawler st2 = Some c ->
  arun_deep c url (deep_crawl_config kwargs) (world st2) = (Returned results, w3) ->
  exists res st',
    crawl_sub_urls url kwargs st = (Returned res, st')
    /\ cs_url res = url
    /\ cs_success res = true
    /\ cs_metadata res = snd (foldl collect_result (∅, MetaIsDict []) results)
    /\ cs_sub_urls res
       = filter (fun found_url => found_url <> url)
                (elements (fst (foldl collect_result (∅, MetaIsDict []) results)))
    /\ cs_urls_found res = length (cs_sub_urls res)
    /\ cs_crawl_depth res
       = kwargs_get (kw_depth kwargs) (Config.deep_crawl_depth settings)
    /\ cs_max_pages res
       = kwargs_get (kw_max_pages kwargs) (Config.deep_crawl_max_pages settings)
    /\ cs_strategy res
       = kwargs_get (kw_strategy kwargs) (Config.deep_crawl_strategy settings).
Proof.
  intros Hinit Hc Hrun.
  unfold crawl_sub_urls. unfold bind at 1. unfold try_except, call at 1. simpl.
  destruct (time_time (world st)) as [t0 w1] eqn:Hclock.
  unfold after_clock in Hinit. rewrite Hclock in Hinit. simpl in Hinit.
  unfold bind at 1. rewrite Hinit.
  unfold bind at 1. unfold get_crawler at 1. rewrite Hc.
  unfold bind at 1. unfold call_exn at 1.
  assert (Hcfg : forall cfg, cfg = deep_crawl_config kwargs ->
                 arun_deep c url cfg (world st2) = (Returned results, w3)).
  { intros cfg ->. exact Hrun. }
  match goal with
  | |- context [arun_deep c url ?cfg (world st2)] =>
      rewrite (Hcfg cfg)
  end.
  2:{ unfold deep_crawl_config.
      destruct (String.eqb _ "dfs"); [reflexivity|].
      destruct (String.eqb _ "best_first"); reflexivity. }
  destruct (foldl collect_result (∅, MetaIsDict []) results) as [all_urls metadata].
  unfold bind, call, ret. simpl.
  destruct (time_time w3) as [t1 w4]. simpl.
  destruct (uuid4 w4) as [task_id w5]. simpl.
  eexists _, _. split; [reflexivity|]. simpl. repeat split.
Qed.

End DeepCrawlResponse.

(** X14: a deep crawl that returns always reports [success] true, also
    when the traversal yields no page at all (then there is no sub-URL and
    the metadata is the empty dict), and it echoes the seed URL and the
    depth, page budget and strategy it ran with, the settings standing in
    for what the caller left out. *)
Theorem crawl_sub_urls_always_reports_success {W C : Type} {collab : Collaborators W C}
    (url : string) (kwargs : Kwargs) (st st2 : State W C)
    (c : C) (results : list CrawlResult) (w3 : W) :
  ensure_initialized (after_clock st) = (Returned tt, st2) ->
  crawler st2 = Some c ->
  arun_deep c url (deep_crawl_config kwargs) (world st2) = (Returned results, w3) ->
  exists res st',
    crawl_sub_urls url kwargs st = (Returned res, st')
    /\ cs_success res = true
    /\ cs_url res = url
    /\ cs_crawl_depth res
       = kwargs_get (kw_depth kwargs) (Config.deep_crawl_depth settings)
    /\ cs_max_pages res
       = kwargs_get (kw_max_pages kwargs) (Config.deep_crawl_max_pages settings)
    /\ cs_strategy res
       = kwargs_get (kw_strategy kwargs) (Config.deep_crawl_strategy settings)
    /\ (results = [] ->
        cs_sub_urls res = [] /\ cs_urls_found res = 0%nat
        /\ cs_metadata res = MetaIsDict []).
Proof.
  intros Hinit Hc Hrun.
  destruct (crawl_sub_urls_response url kwargs st st2 c results w3 Hinit Hc Hrun)
    as (res & st' & Hres & Hurl & Hok & Hmeta & Hsub & Hfound & Hd & Hp & Hs).
  exists res, st'. repeat (split; [assumption|]).
  intros ->. rewrite Hfound, Hsub, Hmeta. simpl.
  rewrite elements_empty. repeat split.
Qed.

(** X14 on a machine whose traversal yields nothing. *)
Lemma crawl_sub_urls_always_reports_success_witness :
  exists res st',
    crawl_sub_urls (H := offline) "https://example.com" no_kwargs ready
    = (Returned res, st')
    /\ cs_success res = true
    /\ cs_url res = "https://example.com"
    /\ cs_crawl_depth res = 5%Z
    /\ cs_max_pages res = 10%Z
    /\ cs_strategy res = "best_first"
    /\ ([] = @nil CrawlResult ->
        cs_sub_urls res = [] /\ cs_urls_found res = 0%nat
        /\ cs_metadata res = MetaIsDict []).
Proof.
  apply (crawl_sub_urls_always_reports_success (collab := offline)
           "https://example.com" no_kwargs ready
           {| crawler := Some tt; world := 1 |} tt [] 2);
    reflexivity.
Defined.

(** X15: a strategy name other than dfs and best_first runs the
    breadth-first strategy, and the response echoes the name as it was
    given. *)
Theorem crawl_sub_urls_unknown_strategy_is_bfs {W C : Type} {collab : Collaborators W C}
    (url : string) (kwargs : Kwargs) (st st2 : State W C)
    (c : C) (results : list CrawlResult) (w3 : W) :
  ensure_initialized (after_clock st) = (Returned tt, st2) ->
  crawler st2 = Some c ->
  kwargs_get (kw_strategy kwargs) (Config.deep_crawl_strategy settings) <> "dfs" ->
  kwargs_get (kw_strategy kwargs) (Config.deep_crawl_strategy settings) <> "best_first" ->
  arun_deep c url
    {| deep_crawl_strategy :=
         {| strategy_kind := BFSDeepCrawlStrategy;
            max_depth := kwargs_get (kw_depth kwargs) (Config.deep_crawl_depth settings);
            max_pages :=
              kwargs_get (kw_max_pages kwargs) (Config.deep_crawl_max_pages settings);
            filter_chain := None |};
       stream := true;
       deep_verbose := Config.browser_verbose settings |}
    (world st2) = (Returned results, w3) ->
  exists res st',
    crawl_sub_urls url kwargs st = (Returned res, st')
    /\ cs_strategy res
       = kwargs_get (kw_strategy kwargs) (Config.deep_crawl_strategy settings)
    /\ (forall u, u ∈ cs_sub_urls res <->
                  u <> url /\ exists r, r ∈ results /\ r_url r = Some u).
Proof.
  intros Hinit Hc Hdfs Hbest Hrun.
  assert (Hcfg : arun_deep c url (deep_crawl_config kwargs) (world st2)
                 = (Returned results, w3)).
  { unfold deep_crawl_config.
    apply String.eqb_neq in Hdfs. apply String.eqb_neq in Hbest.
    rewrite Hdfs, Hbest. exact Hrun. }
  destruct (crawl_sub_urls_response url kwargs st st2 c results w3 Hinit Hc Hcfg)
    as (res & st' & Hres & _ & _ & _ & Hsub & _ & _ & _ & Hs).
  exists res, st'. split; [exact Hres|]. split; [exact Hs|].
  intros u. rewrite Hsub, list_elem_of_filter, elem_of_elements, collect_result_urls.
  simpl. rewrite elem_of_empty. tauto.
Qed.

(** X15 on a request for a strategy called random. *)
Lemma crawl_sub_urls_unknown_strategy_is_bfs_witness :
  exists res st',
    crawl_sub_urls (H := scripted) "https://example.com" random_strategy_kwargs ready
    = (Returned res, st')
    /\ cs_strategy res = "random"
    /\ (forall u, u ∈ cs_sub_urls res <->
          u <> "https://example.com"
          /\ exists r,
               r ∈ [ page "https://example.com" "# Home" None;
                     page "https://example.com/login" "# Sign in" None ]
               /\ r_url r = Some u).
Proof.
  apply (crawl_sub_urls_unknown_strategy_is_bfs (collab := scripted)
           "https://example.com" random_strategy_kwargs ready
           {| crawler := Some tt; world := 1 |} tt
           [ page "https://example.com" "# Home" None;
             page "https://example.com/login" "# Sign in" None ] 2);
    try reflexivity; discriminate.
Defined.

(** X16: the metadata of a deep-crawl response is what the first result
    with something truthy to offer offers (its metadata attribute, or a
    dict made of its title): earlier results that offer nothing truthy
    leave no trace and later results are ignored.  When no result offers
    anything truthy the metadata is falsy. *)
Theorem crawl_sub_urls_metadata_is_first_offer {W C : Type} {collab : Collaborators W C}
    (url : string) (kwargs : Kwargs) (st st2 : State W C)
    (c : C) (results : list CrawlResult) (w3 : W) :
  ensure_initialized (after_clock st) = (Returned tt, st2) ->
  crawler st2 = Some c ->
  arun_deep c url (deep_crawl_config kwargs) (world st2) = (Returned results, w3) ->
  exists res st',
    crawl_sub_urls url kwargs st = (Returned res, st')
    /\ (forall pre r post m,
          results = pre ++ r :: post ->
          Forall offers_nothing pre ->
          offered_metadata r = Some m ->
          meta_truthy m = true ->
          cs_metadata res = m)
    /\ (Forall offers_nothing results -> meta_truthy (cs_metadata res) = false).
Proof.
  intros Hinit Hc Hrun.
  destruct (crawl_sub_urls_response url kwargs st st2 c results w3 Hinit Hc Hrun)
    as (res & st' & Hres & _ & _ & Hmeta & _).
  exists res, st'. split; [exact Hres|]. rewrite Hmeta. split.
  - intros pre r post m -> Hpre Hoffer Hm.
    rewrite foldl_app. simpl.
    destruct (foldl collect_result (∅, MetaIsDict []) pre) as [seen m0] eqn:Hfold.
    assert (Hm0 : meta_truthy m0 = false).
    { change m0 with (snd (seen, m0)). rewrite <- Hfold.
      now apply collect_result_stays_falsy. }
    pose proof (collect_result_takes_offer r seen m0 m Hm0 Hoffer) as Htake.
    destruct (collect_result (seen, m0) r) as [seen' m1]. simpl in Htake. subst m1.
    now apply collect_result_keeps_truthy.
  - intros Hnone. now apply collect_result_stays_falsy.
Qed.

(** X16 on a traversal whose seed page has no metadata: the response
    carries the metadata of the first page that has some. *)
Lemma crawl_sub_urls_metadata_is_first_offer_witness :
  exists res st',
    crawl_sub_urls (H := described_traversal) "https://example.com" no_kwargs ready
    = (Returned res, st')
    /\ cs_metadata res = MetaIsDict [("title", Some "Docs")].
Proof.
  destruct (crawl_sub_urls_metadata_is_first_offer (collab := described_traversal)
              "https://example.com" no_kwargs ready
              {| crawler := Some tt; world := 1 |} tt
              [ bare_page "https://example.com";
                described_page "https://example.com/docs" "Docs";
                described_page "https://example.com/blog" "Blog" ] 2
              eq_refl eq_refl eq_refl)
    as (res & st' & Hres & Hfirst & _).
  exists res, st'. split; [exact Hres|].
  apply (Hfirst [ bare_page "https://example.com" ]
                (described_page "https://example.com/docs" "Docs")
                [ described_page "https://example.com/blog" "Blog" ]);
    try reflexivity.
  repeat constructor.
Defined.

(** ** More on the batch crawl, shutdown and health *)

Section ReadyCrawler.

Context {W C : Type} {collab : Collaborators W C}.

(** With a crawler at hand nothing is initialised: the state after the
    first clock reading is the state the loop starts in. *)
Lemma ensure_initialized_ready_crawler (st : State W C) (c : C) :
  crawler st = Some c ->
  ensure_initialized (after_clock st) = (Returned tt, after_clock st).
Proof.
  intros Hc. unfold ensure_initialized, bind, get_crawler, ret. simpl.
  now rewrite Hc.
Qed.

(** A batch crawl that starts with the crawler available returns and
    leaves [self.crawler] as it found it after initialisation. *)
Lemma crawl_urls_leaves_crawler (urls : list string) (kwargs : Kwargs)
    (st st2 : State W C) :
  ensure_initialized (after_clock st) = (Returned tt, st2) ->
  exists res w',
    crawl_urls urls kwargs st
    = (Returned res, {| crawler := crawler st2; world := w' |})
    /\ e_url <$> cu_results res = urls
    /\ cu_success res = forallb e_success (cu_results res)
    /\ cu_urls_processed res = length urls
    /\ cu_average_time_per_url res
       = if (0 <? length urls)%nat
         then Py.round2 (PrimFloat.div (cu_total_execution_time_seconds res)
                                       (Py.float_of_int (Z.of_nat (length urls))))
         else 0%float.
Proof.
  intros Hinit.
  destruct (ensure_initialized_ready _ _ Hinit) as [c Hc].
  destruct (for_each_crawl_returns kwargs (_build_run_config kwargs) urls st2)
    as (es & w3 & Hes & Hmap & _).
  unfold crawl_urls. unfold bind at 1. unfold try_except, call at 1. simpl.
  destruct (time_time (world st)) as [t0 w1] eqn:Hclock.
  unfold after_clock in Hinit. rewrite Hclock in Hinit. simpl in Hinit.
  unfold bind at 1. rewrite Hinit.
  unfold bind at 1. unfold get_crawler at 1. rewrite Hc.
  unfold bind. rewrite Hes.
  unfold call, ret. simpl.
  destruct (time_time w3) as [t1 w4]. simpl.
  destruct (uuid4 w4) as [task_id w5]. simpl.
  eexists _, _. split; [rewrite Hc; reflexivity|]. simpl. repeat split.
  exact Hmap.
Qed.

End ReadyCrawler.

(** X17: with a crawler at hand a batch crawl never raises, whatever
    the URLs and the fetches do: it returns one entry per URL and the
    service keeps the same crawler for the next call. *)
Theorem crawl_urls_returns_with_ready_crawler {W C : Type} {collab : Collaborators W C}
    (urls : list string) (kwargs : Kwargs) (st : State W C) (c : C) :
  crawler st = Some c ->
  exists res st',
    crawl_urls urls kwargs st = (Returned res, st')
    /\ crawler st' = Some c
    /\ e_url <$> cu_results res = urls.
Proof.
  intros Hc.
  destruct (crawl_urls_leaves_crawler urls kwargs st (after_clock st)
              (ensure_initialized_ready_crawler st c Hc))
    as (res & w' & Hres & Hmap & _).
  eexists _, _. split; [exact Hres|]. split; [exact Hc | exact Hmap].
Qed.

(** X17 on a batch with a URL that cannot be fetched. *)
Lemma crawl_urls_returns_with_ready_crawler_witness :
  exists res st',
    crawl_urls (H := scripted) ["https://down.test"; "https://a.test"] no_kwargs ready
    = (Returned res, st')
    /\ crawler st' = Some tt
    /\ e_url <$> cu_results res = ["https://down.test"; "https://a.test"].
Proof.
  apply (crawl_urls_returns_with_ready_crawler (collab := scripted)
           ["https://down.test"; "https://a.test"] no_kwargs ready tt).
  reflexivity.
Defined.

(** X18: a batch crawl of no URL succeeds: no entry, [success] true
    (the conjunction of nothing), nothing processed and an average of 0
    computed without dividing. *)
Theorem crawl_urls_of_nothing_succeeds {W C : Type} {collab : Collaborators W C}
    (kwargs : Kwargs) (st : State W C) (c : C) :
  crawler st = Some c ->
  exists res st',
    crawl_urls [] kwargs st = (Returned res, st')
    /\ cu_results res = []
    /\ cu_success res = true
    /\ cu_urls_processed res = 0%nat
    /\ cu_average_time_per_url res = 0%float.
Proof.
  intros Hc.
  destruct (crawl_urls_leaves_crawler [] kwargs st (after_clock st)
              (ensure_initialized_ready_crawler st c Hc))
    as (res & w' & Hres & Hmap & Hall & Hcount & Havg).
  apply fmap_nil_inv in Hmap.
  eexists _, _. split; [exact Hres|]. rewrite Hall, Hmap.
  repeat split; assumption.
Qed.

(** X18 in the scripted world. *)
Lemma crawl_urls_of_nothing_succeeds_witness :
  exists res st',
    crawl_urls (H := scripted) [] no_kwargs ready = (Returned res, st')
    /\ cu_results res = []
    /\ cu_success res = true
    /\ cu_urls_processed res = 0%nat
    /\ cu_average_time_per_url res = 0%float.
Proof.
  apply (crawl_urls_of_nothing_succeeds (collab := scripted) no_kwargs ready tt).
  reflexivity.
Defined.

(** X19: [shutdown] never raises, also when closing the crawler fails;
    it does nothing without a crawler; and it leaves [self.crawler] set,
    so that the health status reports the crawler as ready after a
    shutdown exactly when it did before. *)
Theorem shutdown_swallows_errors_and_keeps_crawler {W C : Type}
    (close : C -> W -> outcome unit * W) (loop_time : W -> float * W) (st : State W C) :
  exists st',
    shutdown close st = (Returned tt, st')
    /\ crawler st' = crawler st
    /\ (crawler st = None -> st' = st)
    /\ exists status st'',
         get_health_status loop_time st' = (Returned status, st'')
         /\ h_crawler_ready status
            = match crawler st with Some _ => true | None => false end.
Proof.
  assert (Hhealth : forall st' : State W C,
             crawler st' = crawler st ->
             exists status st'',
               get_health_status loop_time st' = (Returned status, st'')
               /\ h_crawler_ready status
                  = match crawler st with Some _ => true | None => false end).
  { intros st' Hsame.
    unfold get_health_status, bind, call, get_crawler, ret.
    destruct (loop_time (world st')) as [t w']. simpl.
    eexists _, _. split; [reflexivity|]. simpl. now rewrite Hsame. }
  unfold shutdown, bind, try_except, call_exn, get_crawler, ret. simpl.
  destruct (crawler st) as [c|] eqn:Hc.
  - destruct (close c (world st)) as [[[]|e] w]; simpl;
      (eexists; split; [reflexivity|]; simpl; split; [exact Hc|];
       split; [discriminate|]; apply Hhealth; exact Hc).
  - exists st. repeat split; [exact Hc|]. apply Hhealth. exact Hc.
Qed.

(** ** The endpoints ([app/routes.py]) *)

(** X20: with a crawler at hand the batch endpoint never answers with an
    HTTP error: URLs that cannot be fetched are reported inside the
    response body, one entry per requested URL. *)
Theorem route_crawl_urls_never_fails_with_ready_crawler {W C : Type}
    {collab : Collaborators W C}
    (request : CrawlUrlsRequest) (st : State W C) (c : C) :
  crawler st = Some c ->
  exists body st',
    route_crawl_urls request st = (Response body, st')
    /\ e_url <$> cu_results body = cur_urls request
    /\ cu_success body = forallb e_success (cu_results body).
Proof.
  intros Hc.
  destruct (crawl_urls_leaves_crawler (cur_urls request) (crawl_urls_kwargs request)
              st (after_clock st) (ensure_initialized_ready_crawler st c Hc))
    as (res & w' & Hres & Hmap & Hall & _).
  unfold route_crawl_urls. rewrite Hres. eauto.
Qed.

(** X20 on a request for a page that is down. *)
Lemma route_crawl_urls_never_fails_with_ready_crawler_witness :
  exists body st',
    route_crawl_urls (H := scripted) (default_urls_request ["https://down.test"]) ready
    = (Response body, st')
    /\ e_url <$> cu_results body = ["https://down.test"]
    /\ cu_success body = forallb e_success (cu_results body).
Proof.
  apply (route_crawl_urls_never_fails_with_ready_crawler (collab := scripted)
           (default_urls_request ["https://down.test"]) ready tt).
  reflexivity.
Defined.

Lemma collect_result_without_metadata (results : list CrawlResult)
    (all_urls : gset string) (m : MetaValue) :
  results <> [] ->
  meta_truthy m = false ->
  Forall (fun r => r_metadata r = Some (MetaNotDict false)) results ->
  snd (foldl collect_result (all_urls, m) results) = MetaNotDict false.
Proof.
  revert all_urls m. induction results as [|r results IH];
    intros all_urls m Hne Hm Hall; [congruence|].
  inversion Hall as [|? ? Hr Hrest]; subst.
  simpl. rewrite Hm, Hr. simpl.
  destruct results as [|r' results]; [reflexivity|].
  apply IH; [discriminate | reflexivity | exact Hrest].
Qed.

(** X21: when the traversal returns pages whose [metadata] attribute is
    [None], every one of them, the deep-crawl endpoint answers with
    HTTP 500 although the crawl itself returned: the result's metadata
    is [None], which the response model does not accept. *)
Theorem route_crawl_suburls_fails_without_metadata {W C : Type}
    {collab : Collaborators W C}
    (metadata_error : string) (request : CrawlSubUrlsRequest)
    (st st2 : State W C) (c : C) (results : list CrawlResult) (w3 : W) :
  ensure_initialized (after_clock st) = (Returned tt, st2) ->
  crawler st2 = Some c ->
  arun_deep c (csr_url request) (deep_crawl_config (crawl_suburls_kwargs request))
            (world st2) = (Returned results, w3) ->
  results <> [] ->
  Forall (fun r => r_metadata r = Some (MetaNotDict false)) results ->
  (exists res st', crawl_sub_urls (csr_url request) (crawl_suburls_kwargs request) st
                   = (Returned res, st'))
  /\ exists st',
       route_crawl_suburls metadata_error request st
       = (HTTPException 500 metadata_error, st').
Proof.
  intros Hinit Hc Hrun Hne Hall.
  destruct (crawl_sub_urls_response (csr_url request) (crawl_suburls_kwargs request)
              st st2 c results w3 Hinit Hc Hrun)
    as (res & st' & Hres & _ & _ & Hmeta & _).
  split; [eauto|].
  rewrite (collect_result_without_metadata results ∅ (MetaIsDict []) Hne eq_refl Hall)
    in Hmeta.
  unfold route_crawl_suburls, CrawlSubUrlsResponse. rewrite Hres, Hmeta. eauto.
Qed.

(** X21 on a traversal of one page without metadata. *)
Lemma route_crawl_suburls_fails_without_metadata_witness :
  (exists res st',
     crawl_sub_urls (H := bare_traversal) "https://example.com"
       (crawl_suburls_kwargs (default_suburls_request "https://example.com")) ready
     = (Returned res, st'))
  /\ exists st',
       route_crawl_suburls (H := bare_traversal) "Input should be a valid dictionary"
         (default_suburls_request "https://example.com") ready
       = (HTTPException 500 "Input should be a valid dictionary", st').
Proof.
  apply (route_crawl_suburls_fails_without_metadata (collab := bare_traversal)
           "Input should be a valid dictionary"
           (default_suburls_request "https://example.com") ready
           {| crawler := Some tt; world := 1 |} tt
           [ bare_page "https://example.com" ] 2);
    try reflexivity; [discriminate | repeat constructor].
Defined.

(** ** Titles found in headings *)

Lemma take_while_all (p : ascii -> bool) (s : string) :
  string_forallb p (Py.take_while p s) = true.
Proof.
  induction s as [|c s IH]; [reflexivity|]. simpl.
  destruct (p c) eqn:Hc; [|reflexivity]. simpl. now rewrite Hc.
Qed.

Lemma dot_plus_eol_line (s g : string) :
  Re.dot_plus_eol s = Some g ->
  g <> "" /\ string_forallb Re.not_newline g = true.
Proof.
  unfold Re.dot_plus_eol.
  pose proof (take_while_all Re.not_newline s) as Hall.
  destruct (Py.take_while Re.not_newline s) as [|c t]; [discriminate|].
  intros [= <-]. split; [discriminate | exact Hall].
Qed.

Lemma spaces_then_title_line (s g : string) :
  Re.spaces_then_title s = Some g ->
  g <> "" /\ string_forallb Re.not_newline g = true.
Proof.
  induction s as [|c s IH]; simpl; [apply dot_plus_eol_line|].
  destruct (Py.isspace c); [|apply dot_plus_eol_line].
  destruct (Re.spaces_then_title s) as [g'|].
  - intros [= <-]. now apply IH.
  - apply dot_plus_eol_line.
Qed.

Lemma heading_here_line (s g : string) :
  Re.heading_here s = Some g ->
  g <> "" /\ string_forallb Re.not_newline g = true.
Proof.
  unfold Re.heading_here.
  destruct s as [|c s]; [discriminate|].
  destruct (Ascii.eqb c "#") eqn:Hhash.
  - apply Ascii.eqb_eq in Hhash. subst c.
    destruct s as [|c' s']; [discriminate|].
    destruct (Py.isspace c'); [|discriminate].
    apply spaces_then_title_line.
  - apply Ascii.eqb_neq in Hhash.
    destruct c as [[] [] [] [] [] [] [] []]; try discriminate.
    now contradiction Hhash.
Qed.

Lemma search_heading_line (s g : string) (bol : bool) :
  Re.search_heading_from bol s = Some g ->
  g <> "" /\ string_forallb Re.not_newline g = true.
Proof.
  revert bol. induction s as [|c s IH]; intros bol;
    cbn [Re.search_heading_from]; [discriminate|].
  destruct (if bol then Re.heading_here (String c s) else None) as [g'|] eqn:Hhere.
  - intros Heq. injection Heq as ->.
    destruct bol; [|discriminate]. now apply heading_here_line in Hhere.
  - apply IH.
Qed.

(** X22: a title taken from a heading of the markdown is never empty
    and never contains a newline: [_extract_metadata] either has no
    title from a heading or a one-line one. *)
Theorem heading_title_is_one_line (s : string) :
  title_of_heading s = []
  \/ exists g, title_of_heading s = [("title", Some g)]
               /\ g <> "" /\ string_forallb Re.not_newline g = true.
Proof.
  unfold title_of_heading, Re.search_heading.
  destruct (Re.search_heading_from true s) as [g|] eqn:Hs; [|now left].
  right. exists g. split; [reflexivity|]. now apply search_heading_line in Hs.
Qed.

(** ** Link sources *)

Lemma candidate_links_structured (r : CrawlResult) :
  structured_links r <> [] -> candidate_links r = structured_links r.
Proof.
  intros Hsome. unfold candidate_links, links_after_markdown, links_after_html.
  destruct (structured_links r) as [|l ls]; [congruence|]. reflexivity.
Qed.

(** X23: when the outcome carries a non-empty structured link list, the
    html and markdown of the outcome are never parsed: two outcomes with
    the same structured links give the same links, whatever their
    contents. *)
Theorem extract_links_prefers_structured_list (r r' : CrawlResult) :
  structured_links r <> [] ->
  structured_links r' = structured_links r ->
  _extract_links r' = _extract_links r
  /\ _extract_links r `sublist_of` structured_links r.
Proof.
  intros Hsome Hsame.
  assert (Hsome' : structured_links r' <> []) by congruence.
  unfold _extract_links.
  rewrite (candidate_links_structured r Hsome), (candidate_links_structured r' Hsome').
  rewrite Hsame. split; [reflexivity|].
  rewrite unique_links_from_first_seen.
  etransitivity; [apply first_seen_sublist | apply sublist_filter].
Qed.

(** X23 on an outcome with one structured link and an anchor in its
    html: the anchor is not returned. *)
Lemma extract_links_prefers_structured_list_witness :
  _extract_links (with_html_text (links_only ["/docs"])
                    (Some (Some anchor_html)) None None None)
  = _extract_links (links_only ["/docs"])
  /\ _extract_links (links_only ["/docs"]) `sublist_of` structured_links (links_only ["/docs"]).
Proof.
  apply (extract_links_prefers_structured_list (links_only ["/docs"])
           (with_html_text (links_only ["/docs"]) (Some (Some anchor_html)) None None None));
    [discriminate | reflexivity].
Defined.
